(** * SVCS: a shallow embedding of the snapshot engine

    The repository holds successive revisions of one Go program (a small
    version-control tool).  Two of them carry the snapshot engine:

    - [src/main.go] (first program of the file): commit guarded by
      [hasChanges], a log read in file order, [checkout] resolving a hash
      through [findCommit];
    - [src/unnamed/part_000]: commit guarded by an empty-stage test, a
      [Commit] with a [Files] field, [clearStage], a log read in reverse.

    Each revision is embedded in a module of its own ([Main], [Part000])
    over a common model of the pieces of Go's library that the code calls
    ([bufio.Scanner], [strings.SplitN], [crypto/sha256], the [os] file
    operations).  The two revisions before the engine, where [log],
    [commit] and [checkout] are stubs, are embedded beside them: the second
    program of [src/main.go] ([Stage2]) and [src/unnamed/part_001]
    ([Part001]).

    Modelling conventions.
    - A Go [string] is a byte sequence: Rocq's [string].
    - The disk is the working tree and the directory [./vcs].  The
      working tree is the working directory seen by name: a finite map
      from the name of an entry to its node.  The model follows the code
      for plain names ([plain]: no separator, and none of the empty name,
      [.], [..] and [vcs]): for such a name
      [filepath.Join(commitsDir, hash, name)] is the file [name] of the
      directory of [hash].  A path with separators is cleaned by
      [filepath.Join] and may then name the log, the index, the identity,
      a file of another snapshot or a file of the working tree; the model
      does not follow the code there, and the theorems on what [commit]
      writes assume that the staged names are plain.  [os.Stat] sees in
      addition the directory [./vcs] under its name [vcs].
    - A command is a function from the world (disk and standard output) to
      a result: it returns, or the process stops ([log.Fatal], or a
      run-time panic), in both cases with the world it leaves behind.
    - Failures of the medium (permissions, full disk) are outside the
      model; failures that depend on the modelled state (a missing file, a
      directory where a file is read, a missing [./vcs]) are inside. *)

From Stdlib Require Import NArith Ascii.
From stdpp Require Import gmap strings list fin_maps.

(** ** crypto/sha256 and encoding/hex *)

Module Sha256.

Local Open Scope N_scope.

Definition mask32 : N := 0xffffffff.
Definition add32 (x y : N) : N := N.land (x + y) mask32.
Definition rotr (n x : N) : N :=
  N.lor (N.shiftr x n) (N.land (N.shiftl x (32 - n)) mask32).
Definition not32 (x : N) : N := N.lxor x mask32.

Definition Ch (x y z : N) : N := N.lxor (N.land x y) (N.land (not32 x) z).
Definition Maj (x y z : N) : N :=
  N.lxor (N.lxor (N.land x y) (N.land x z)) (N.land y z).
Definition Sigma0 (x : N) : N := N.lxor (N.lxor (rotr 2 x) (rotr 13 x)) (rotr 22 x).
Definition Sigma1 (x : N) : N := N.lxor (N.lxor (rotr 6 x) (rotr 11 x)) (rotr 25 x).
Definition sigma0 (x : N) : N := N.lxor (N.lxor (rotr 7 x) (rotr 18 x)) (N.shiftr x 3).
Definition sigma1 (x : N) : N := N.lxor (N.lxor (rotr 17 x) (rotr 19 x)) (N.shiftr x 10).

(** The constants are taken from prime numbers: the first thirty-two bits
    of the fractional part of the cube root of each of the first sixty-four
    primes for [K], of the square root of each of the first eight for [H0]. *)
Definition is_prime (n : N) : bool :=
  forallb (fun d => negb (n mod (N.of_nat d) =? 0)) (seq 2 (N.to_nat n - 2)).

Definition primes (bound : nat) : list N :=
  filter (fun n => Is_true (is_prime n)) (map N.of_nat (seq 2 bound)).

(** The largest [r] below [2 ^ bits] with [r ^ k <= x], bit by bit. *)
Fixpoint iroot (k x : N) (bits : nat) (r : N) : N :=
  match bits with
  | O => r
  | S b =>
      let r' := r + 2 ^ N.of_nat b in
      if r' ^ k <=? x then iroot k x b r' else iroot k x b r
  end.

Definition frac32 (k p : N) : N :=
  N.land (iroot k (p * 2 ^ (32 * k)) 40 0) mask32.

Definition K : list N := Eval vm_compute in map (frac32 3) (primes 310).

Definition H0 : list N := Eval vm_compute in map (frac32 2) (take 8 (primes 310)).

(** The message: bytes, then the bit 1, then zeros up to 56 modulo 64, then
    the length in bits on eight bytes, most significant first. *)
Definition be_bytes (width : nat) (x : N) : list N :=
  map (fun i => N.land (N.shiftr x (8 * N.of_nat i)) 0xff) (rev (seq 0 width)).

Definition pad (msg : list N) : list N :=
  let len := N.of_nat (length msg) in
  let zeros := N.to_nat ((119 - len mod 64) mod 64) in
  msg ++ [0x80] ++ repeat 0 zeros ++ be_bytes 8 (8 * len).

Fixpoint be_words (bs : list N) : list N :=
  match bs with
  | b0 :: b1 :: b2 :: b3 :: rest =>
      N.lor (N.shiftl b0 24) (N.lor (N.shiftl b1 16) (N.lor (N.shiftl b2 8) b3))
      :: be_words rest
  | _ => []
  end.

(** The message schedule, on a window of the last sixteen words. *)
Fixpoint schedule (n : nat) (win : list N) : list N :=
  match n with
  | O => []
  | S n' =>
      let w := add32 (add32 (sigma1 (nth 14 win 0)) (nth 9 win 0))
                     (add32 (sigma0 (nth 1 win 0)) (nth 0 win 0)) in
      w :: schedule n' (tl win ++ [w])
  end.

Definition round (st : list N) (kw : N * N) : list N :=
  match st with
  | [a; b; c; d; e; f; g; h] =>
      let t1 := add32 (add32 (add32 h (Sigma1 e)) (add32 (Ch e f g) kw.1)) kw.2 in
      let t2 := add32 (Sigma0 a) (Maj a b c) in
      [add32 t1 t2; a; b; c; add32 d t1; e; f; g]
  | _ => st
  end.

Definition compress (st : list N) (block : list N) : list N :=
  let w := block ++ schedule 48 block in
  zip_with add32 st (fold_left round (zip K w) st).

Fixpoint blocks (n : nat) (ws : list N) : list (list N) :=
  match n with
  | O => []
  | S n' => take 16 ws :: blocks n' (drop 16 ws)
  end.

Definition sum (msg : list N) : list N :=
  let ws := be_words (pad msg) in
  flat_map (be_bytes 4) (fold_left compress (blocks (length ws / 16) ws) H0).

End Sha256.

Module Hex.

Definition digit (n : N) : ascii :=
  nth (N.to_nat n)
    ["0"; "1"; "2"; "3"; "4"; "5"; "6"; "7";
     "8"; "9"; "a"; "b"; "c"; "d"; "e"; "f"]%char "0"%char.

Fixpoint EncodeToString (bs : list N) : string :=
  match bs with
  | [] => ""
  | b :: rest =>
      String (digit (N.shiftr b 4)) (String (digit (N.land b 15)) (EncodeToString rest))
  end.

End Hex.

Fixpoint bytes_of (s : string) : list N :=
  match s with
  | EmptyString => []
  | String c s' => N_of_ascii c :: bytes_of s'
  end.

(** [hex.EncodeToString(h.Sum(nil))] once [data] has been written to [h]. *)
Definition sha256_hex (data : string) : string :=
  Hex.EncodeToString (Sha256.sum (bytes_of data)).

(** ** bufio.Scanner (split function ScanLines) and strings.SplitN *)

Definition nl : string := String "010"%char "".

Module Bufio.

(** [bufio.MaxScanTokenSize]: the scanner's buffer never grows beyond it, and
    a line has to fit in it together with its end-of-line marker. *)
Definition MaxScanTokenSize : N := 64 * 1024.

Inductive error := ErrTooLong.

(** [dropCR]: a final carriage return is not part of the token. *)
Fixpoint dropCR (data : string) : string :=
  match data with
  | EmptyString => EmptyString
  | String c rest =>
      match rest with
      | EmptyString => if decide (c = "013"%char) then EmptyString else data
      | _ => String c (dropCR rest)
      end
  end.

(** The reader's bytes cut at each newline: the lines that end in a newline,
    and what follows the last newline. *)
Fixpoint cut_lines (data : string) : list string * string :=
  match data with
  | EmptyString => ([], EmptyString)
  | String c rest =>
      let '(ls, r) := cut_lines rest in
      if decide (c = "010"%char) then (EmptyString :: ls, r)
      else match ls with
           | [] => ([], String c r)
           | l :: ls' => (String c l :: ls', r)
           end
  end.

(** At the end of the input, ScanLines returns what is left as a last token
    unless nothing is left. *)
Definition raw_lines (data : string) : list string :=
  let '(ls, r) := cut_lines data in
  ls ++ match r with EmptyString => [] | _ => [r] end.

Definition fits (raw : string) : bool :=
  (N.of_nat (String.length raw) <? MaxScanTokenSize)%N.

(** [Scan] returns false on the first line that does not fit the buffer, and
    [Err] then reports [ErrTooLong]; at the end of the input it returns false
    and [Err] reports nil. *)
Fixpoint scan_tokens (raws : list string) : list string * option error :=
  match raws with
  | [] => ([], None)
  | raw :: rest =>
      if fits raw then
        let '(ts, e) := scan_tokens rest in (dropCR raw :: ts, e)
      else ([], Some ErrTooLong)
  end.

(** [scan data]: the tokens that [Text] yields after each successful [Scan]
    of a scanner on a reader holding [data], and what [Err] reports once
    [Scan] has returned false. *)
Definition scan (data : string) : list string * option error :=
  scan_tokens (raw_lines data).

(** One call of [Scan], then [Text] and [Err]. *)
Definition scan_once (data : string) : string * option error :=
  match scan data with
  | (t :: _, _) => (t, None)
  | ([], e) => (EmptyString, e)
  end.

End Bufio.

Module Strings.

(** [strings.Cut] on a one-byte separator. *)
Fixpoint Cut (s : string) (sep : ascii) : option (string * string) :=
  match s with
  | EmptyString => None
  | String c rest =>
      if decide (c = sep) then Some (EmptyString, rest)
      else match Cut rest sep with
           | Some (before, after) => Some (String c before, after)
           | None => None
           end
  end.

(** [strings.SplitN(s, sep, n)] for a one-byte [sep] and [n >= 0]: at most
    [n] pieces, the last one being the unsplit remainder. *)
Fixpoint SplitN (s : string) (sep : ascii) (n : nat) : list string :=
  match n with
  | O => []
  | S n' =>
      match n' with
      | O => [s]
      | _ => match Cut s sep with
             | Some (before, after) => before :: SplitN after sep n'
             | None => [s]
             end
      end
  end.

End Strings.

(** ** The world: disk and standard output *)

Inductive node :=
  | File (content : string)
  | Dir.

(** The three files of [./vcs] that the program names by a constant. *)
Inductive vcsFile := configFile | indexFile | logFile.

(** [./vcs]: its three files (absent, or their bytes) and, under
    [commitsDir], one directory per hash holding the copied files. *)
Record Vcs := mkVcs {
  config_txt : option string;
  index_txt : option string;
  log_txt : option string;
  commitsDir : gmap string (gmap string string)
}.

Record Disk := mkDisk {
  tree : gmap string node;
  vcsDir : option Vcs
}.

Record World := mkWorld {
  disk : Disk;
  stdout : string
}.

Definition emptyVcs : Vcs := mkVcs None None None ∅.

Definition vget (f : vcsFile) (v : Vcs) : option string :=
  match f with
  | configFile => config_txt v
  | indexFile => index_txt v
  | logFile => log_txt v
  end.

Definition vset (f : vcsFile) (data : string) (v : Vcs) : Vcs :=
  match f with
  | configFile => mkVcs (Some data) (index_txt v) (log_txt v) (commitsDir v)
  | indexFile => mkVcs (config_txt v) (Some data) (log_txt v) (commitsDir v)
  | logFile => mkVcs (config_txt v) (index_txt v) (Some data) (commitsDir v)
  end.

Definition set_commits (c : gmap string (gmap string string)) (v : Vcs) : Vcs :=
  mkVcs (config_txt v) (index_txt v) (log_txt v) c.

Definition set_vcs (v : Vcs) (w : World) : World :=
  mkWorld (mkDisk (tree (disk w)) (Some v)) (stdout w).

Definition set_tree (t : gmap string node) (w : World) : World :=
  mkWorld (mkDisk t (vcsDir (disk w))) (stdout w).

(** What a file of [./vcs] holds, when [./vcs] and the file exist. *)
Definition content (f : vcsFile) (w : World) : option string :=
  v ← vcsDir (disk w); vget f v.

(** The directory of a hash under [commitsDir], when it exists. *)
Definition snapshot (hash : string) (w : World) : option (gmap string string) :=
  v ← vcsDir (disk w); commitsDir v !! hash.

(** ** Commands *)

(** The process stops: [log.Fatal] (exit status 1) or a run-time panic. *)
Inductive Stop := Fatal | Panic.

Inductive Res (A : Type) :=
  | Done (a : A) (w : World)
  | Stopped (s : Stop) (w : World).
Arguments Done {A} a w.
Arguments Stopped {A} s w.

Definition Cmd (A : Type) : Type := World → Res A.

Global Instance Cmd_ret : MRet Cmd := λ A a w, Done a w.
Global Instance Cmd_bind : MBind Cmd := λ A B f m w,
  match m w with
  | Done a w' => f a w'
  | Stopped s w' => Stopped s w'
  end.

Definition gets {A} (f : World → A) : Cmd A := λ w, Done (f w) w.
Definition modify (f : World → World) : Cmd unit := λ w, Done tt (f w).
Definition log_Fatal {A} : Cmd A := λ w, Stopped Fatal w.
Definition panic {A} : Cmd A := λ w, Stopped Panic w.

Fixpoint for_each {A} (xs : list A) (body : A → Cmd unit) : Cmd unit :=
  match xs with
  | [] => mret tt
  | x :: rest => body x;; for_each rest body
  end.

Fixpoint map_each {A B} (xs : list A) (body : A → Cmd B) : Cmd (list B) :=
  match xs with
  | [] => mret []
  | x :: rest => y ← body x; ys ← map_each rest body; mret (y :: ys)
  end.

(** [xs[i]], which panics out of range. *)
Definition at_index {A} (xs : list A) (i : nat) : Cmd A :=
  match xs !! i with
  | Some x => mret x
  | None => panic
  end.

(** *** fmt *)

Definition Printf (s : string) : Cmd unit :=
  modify (λ w, mkWorld (disk w) (stdout w +:+ s)).
Definition Println (s : string) : Cmd unit := Printf (s +:+ nl).

(** *** os *)

(** The errors that the program tests. *)
Inductive error :=
  | ErrNotExist
  | ErrScan (e : Bufio.error).

(** [os.MkdirAll(vcsDir, os.ModePerm)] *)
Definition MkdirAll_vcsDir : Cmd unit :=
  modify (λ w, match vcsDir (disk w) with
               | Some _ => w
               | None => set_vcs emptyVcs w
               end).

(** [os.Stat(filename)]: whether [err == nil].  The name [vcs] is the
    directory [./vcs], which [add] has created by then; any other name is
    looked up in the working tree. *)
Definition Stat (filename : string) : Cmd bool :=
  gets (λ w, if decide (filename = "vcs")
             then bool_decide (is_Some (vcsDir (disk w)))
             else bool_decide (is_Some (tree (disk w) !! filename))).

(** [os.Open(filename)] in the working tree: the node, or an error. *)
Definition Open (filename : string) : Cmd (option node) :=
  gets (λ w, tree (disk w) !! filename).

(** What reading an opened node to its end gives: a directory opens, and
    reading it is an error. *)
Definition read_all (n : node) : option string :=
  match n with
  | File bytes => Some bytes
  | Dir => None
  end.

(** [os.Open(f)] on a file of [./vcs], read to its end. *)
Definition OpenVcs (f : vcsFile) : Cmd (option string) := gets (content f).

(** [os.OpenFile(f, os.O_APPEND|os.O_CREATE|os.O_WRONLY, 0644)]: creates the
    file when it is absent; an error ([false]) when [./vcs] is missing. *)
Definition OpenFile_append (f : vcsFile) : Cmd bool := λ w,
  match vcsDir (disk w) with
  | None => Done false w
  | Some v =>
      match vget f v with
      | Some _ => Done true w
      | None => Done true (set_vcs (vset f "" v) w)
      end
  end.

(** [file.WriteString(s)] on a file opened by [OpenFile_append]. *)
Definition WriteString (f : vcsFile) (s : string) : Cmd unit :=
  modify (λ w, match vcsDir (disk w) with
               | None => w
               | Some v => set_vcs (vset f (default "" (vget f v) +:+ s) v) w
               end).

(** [os.Truncate(f, 0)]: the error, if any. *)
Definition Truncate (f : vcsFile) : Cmd (option error) := λ w,
  match vcsDir (disk w) with
  | None => Done (Some ErrNotExist) w
  | Some v =>
      match vget f v with
      | Some _ => Done None (set_vcs (vset f "" v) w)
      | None => Done (Some ErrNotExist) w
      end
  end.

Definition IsNotExist (e : error) : bool :=
  match e with
  | ErrNotExist => true
  | ErrScan _ => false
  end.

(** [os.Stat(filepath.Join(commitsDir, hash))]: whether [err == nil]. *)
Definition StatCommit (hash : string) : Cmd bool :=
  gets (λ w, bool_decide (is_Some (snapshot hash w))).

(** [os.MkdirAll(filepath.Dir(dest), os.ModePerm)] for the destination
    [filepath.Join(commitsDir, hash, filename)] of a plain [filename], whose
    directory is [commitsDir/hash]: creates [./vcs], [commitsDir] and the
    directory of the hash as far as they are missing.  (For a name with
    dot-dot segments the directory of the destination is another one, and
    the code does not create the directory of the hash.) *)
Definition MkdirAll_commit (hash : string) : Cmd unit :=
  modify (λ w,
    let v := default emptyVcs (vcsDir (disk w)) in
    match commitsDir v !! hash with
    | Some _ => set_vcs v w
    | None => set_vcs (set_commits (<[hash := ∅]> (commitsDir v)) v) w
    end).

(** Writing [bytes] as the whole content of
    [filepath.Join(commitsDir, hash, filename)] for a plain [filename], the
    file [filename] of the directory of [hash]: [os.Create] with no byte,
    [io.Copy] with those of the source.  (For a name with separators the
    cleaned destination can be any file of the disk.) *)
Definition write_commit (hash filename bytes : string) : Cmd unit :=
  modify (λ w,
    let v := default emptyVcs (vcsDir (disk w)) in
    let d := default ∅ (commitsDir v !! hash) in
    set_vcs (set_commits (<[hash := <[filename := bytes]> d]> (commitsDir v)) v) w).

(** [os.Create(f)] on a file of [./vcs]: creates or truncates; an error
    ([false]) when [./vcs] is missing. *)
Definition Create (f : vcsFile) : Cmd bool := λ w,
  match vcsDir (disk w) with
  | None => Done false w
  | Some v => Done true (set_vcs (vset f "" v) w)
  end.

(** ** Functions that read the same in src/main.go and src/unnamed/part_000 *)

Definition setUsername (username : string) : Cmd unit :=
  MkdirAll_vcsDir;;
  ok ← Create configFile;
  if ok : bool then WriteString configFile username else mret tt.

Definition getUsername : Cmd (string * option error) :=
  file ← OpenVcs configFile;
  match file with
  | None => mret ("", Some ErrNotExist)
  | Some data =>
      let '(text, e) := Bufio.scan_once data in mret (text, ErrScan <$> e)
  end.

Definition doConfig (args : list string) : Cmd unit :=
  match args with
  | [username] => setUsername username
  | _ => mret tt
  end;;
  r ← getUsername;
  match r.2 with
  | None => Printf ("The username is " +:+ r.1 +:+ "." +:+ nl)
  | Some _ => Println "Please, tell me who you are."
  end.

Definition getTrackedFiles : Cmd (list string) :=
  file ← OpenVcs indexFile;
  match file with
  | None => mret []
  | Some data => mret (Bufio.scan data).1
  end.

Definition showTrackedFiles : Cmd unit :=
  files ← getTrackedFiles;
  match files with
  | [] => Println "Add a file to the index."
  | _ => Println "Tracked files:";; for_each files Println
  end.

(** The loop of [computeHash]: [written] is what has been copied into
    [sha256Hash] so far; the loop returns what has been copied in the end. *)
Fixpoint hashed_bytes (files : list string) (written : string) : Cmd string :=
  match files with
  | [] => mret written
  | filename :: rest =>
      file ← Open filename;
      match file with
      | None => log_Fatal
      | Some n =>
          match read_all n with
          | None => log_Fatal
          | Some bytes => hashed_bytes rest (written +:+ bytes)
          end
      end
  end.

(** [dest] is [filepath.Join(commitsDir, dest.1, dest.2)], for a plain name
    [dest.2]. *)
Definition copyFile (dest : string * string) (src : string) : Cmd unit :=
  MkdirAll_commit dest.1;;
  source ← Open src;
  match source with
  | None => log_Fatal
  | Some n =>
      write_commit dest.1 dest.2 "";;
      match read_all n with
      | None => log_Fatal
      | Some bytes => write_commit dest.1 dest.2 bytes
      end
  end.

(** ** src/main.go *)

Module Main.

Record Commit := mkCommit {
  Hash : string;
  Username : string;
  Message : string
}.

Definition show (c : Commit) : Cmd unit :=
  Println ("commit " +:+ Hash c);;
  Println ("Author: " +:+ Username c);;
  Println (Message c).

Definition doAdd (args : list string) : Cmd unit :=
  match args with
  | [filename] =>
      MkdirAll_vcsDir;;
      found ← Stat filename;
      if found : bool then
        ok ← OpenFile_append indexFile;
        if ok : bool then
          WriteString indexFile (filename +:+ nl);;
          Printf ("The file '" +:+ filename +:+ "' is tracked." +:+ nl)
        else log_Fatal
      else Printf ("Can't find '" +:+ filename +:+ "'." +:+ nl)
  | _ => showTrackedFiles
  end.

(** One turn of the loop of [getCommits]. *)
Definition parseLine (line : string) : Cmd Commit :=
  let data := Strings.SplitN line " "%char 3 in
  hash ← at_index data 0;
  username ← at_index data 1;
  message ← at_index data 2;
  mret (mkCommit hash username message).

Definition getCommits : Cmd (list Commit) :=
  file ← OpenVcs logFile;
  match file with
  | None => mret []
  | Some data => map_each (Bufio.scan data).1 parseLine
  end.

Definition doLog : Cmd unit :=
  commits ← getCommits;
  match commits with
  | [] => Println "No commits yet."
  | _ =>
      let i := length commits - 1 in
      c ← at_index commits i;
      show c;;
      for_each (rev (seq 0 i))
        (λ i, Println "";; c ← at_index commits i; show c)
  end.

Fixpoint find_in (commits : list Commit) (hash : string) : Commit * bool :=
  match commits with
  | [] => (mkCommit "" "" "", false)
  | commit :: rest =>
      if decide (Hash commit = hash) then (commit, true) else find_in rest hash
  end.

Definition findCommit (hash : string) : Cmd (Commit * bool) :=
  commits ← getCommits;
  mret (find_in commits hash).

Definition restoreCommit (commit : Commit) : Cmd unit := show commit.

Definition computeHash (files : list string) : Cmd string :=
  written ← hashed_bytes files "";
  mret (sha256_hex written).

Definition hasChanges (hash : string) : Cmd bool :=
  found ← StatCommit hash;
  mret (negb found).

Definition commitFiles (hash : string) (files : list string) : Cmd unit :=
  for_each files (λ filename, copyFile (hash, filename) filename).

Definition logLine (c : Commit) : string :=
  Hash c +:+ " " +:+ Username c +:+ " " +:+ Message c +:+ nl.

Definition addLog (c : Commit) : Cmd unit :=
  ok ← OpenFile_append logFile;
  if ok : bool then WriteString logFile (logLine c) else log_Fatal.

Definition saveCommit (username message : string) : Cmd bool :=
  files ← getTrackedFiles;
  hash ← computeHash files;
  changes ← hasChanges hash;
  if changes : bool then
    let commit := mkCommit hash username message in
    commitFiles hash files;;
    addLog commit;;
    mret true
  else mret false.

Definition doCommit (args : list string) : Cmd unit :=
  match args with
  | [message] =>
      r ← getUsername;
      match r.2 with
      | Some _ => Println "Please, tell me who are you."
      | None =>
          saved ← saveCommit r.1 message;
          if saved : bool then Println "Changes are committed."
          else Println "Nothing to commit."
      end
  | _ => Println "Message was not passed."
  end.

Definition doCheckout (args : list string) : Cmd unit :=
  match args with
  | [hash] =>
      r ← findCommit hash;
      if r.2 : bool then restoreCommit r.1
      else Println "Commit does not exist."
  | _ => Println "Commit id was not passed."
  end.

(** [type Command string] and its constants. *)
Abbreviation Command := string (only parsing).

Definition cmdConfig : Command := "config".
Definition cmdAdd : Command := "add".
Definition cmdLog : Command := "log".
Definition cmdCommit : Command := "commit".
Definition cmdCheckout : Command := "checkout".

Definition allowedCommands : list Command :=
  [cmdConfig; cmdAdd; cmdLog; cmdCommit; cmdCheckout].

Definition helpMsg : gmap string string :=
  <[cmdConfig := "Get and set a username."]>
  (<[cmdAdd := "Add a file to the index."]>
  (<[cmdLog := "Show commit logs."]>
  (<[cmdCommit := "Save changes."]>
  (<[cmdCheckout := "Restore a file."]> ∅)))).

(** The verb [%-8s] of [Printf]: the string, then spaces up to eight
    characters (the commands are ASCII: a byte is a character). *)
Fixpoint blanks (n : nat) : string :=
  match n with
  | O => ""
  | S n' => String " "%char (blanks n')
  end.

Definition pad8 (s : string) : string := s +:+ blanks (8 - String.length s).

(** A key that a Go map does not hold reads as the zero value. *)
Definition displayHelp : Cmd unit :=
  Println "These are SVCS commands:";;
  for_each allowedCommands
    (λ command,
       Printf (pad8 command +:+ "  " +:+ default "" (helpMsg !! command) +:+ nl)).

(** [Args] is [os.Args], the name of the program first. *)
Definition main (Args : list string) : Cmd unit :=
  match Args with
  | _ :: cmd :: args =>
      if decide (cmd = "--help") then displayHelp
      else if decide (cmd = cmdConfig) then doConfig args
      else if decide (cmd = cmdAdd) then doAdd args
      else if decide (cmd = cmdLog) then doLog
      else if decide (cmd = cmdCommit) then doCommit args
      else if decide (cmd = cmdCheckout) then doCheckout args
      else Printf ("'" +:+ cmd +:+ "' is not a SVCS command." +:+ nl)
  | _ => displayHelp
  end.

End Main.

(** ** src/unnamed/part_000 *)

Module Part000.

Record Person := mkPerson { Name : string }.

Record Commit := mkCommit {
  Hash : string;
  Author : Person;
  Message : string;
  Files : list string
}.

(** As in [src/main.go], but for the last [Printf], which ends in no
    newline. *)
Definition doAdd (args : list string) : Cmd unit :=
  match args with
  | [filename] =>
      MkdirAll_vcsDir;;
      found ← Stat filename;
      if found : bool then
        ok ← OpenFile_append indexFile;
        if ok : bool then
          WriteString indexFile (filename +:+ nl);;
          Printf ("The file '" +:+ filename +:+ "' is tracked.")
        else log_Fatal
      else Printf ("Can't find '" +:+ filename +:+ "'." +:+ nl)
  | _ => showTrackedFiles
  end.

Definition show (c : Commit) : Cmd unit :=
  Println ("commit " +:+ Hash c);;
  Println ("Author: " +:+ Name (Author c));;
  Println (Message c).

(** One turn of the loop of [getCommits]: [Files] is not set. *)
Definition parseLine (line : string) : Cmd Commit :=
  let data := Strings.SplitN line " "%char 3 in
  hash ← at_index data 0;
  name ← at_index data 1;
  message ← at_index data 2;
  mret (mkCommit hash (mkPerson name) message []).

Definition getCommits : Cmd (list Commit) :=
  file ← OpenVcs logFile;
  match file with
  | None => mret []
  | Some data =>
      commits ← map_each (Bufio.scan data).1 parseLine;
      mret (rev commits)
  end.

Definition doLog : Cmd unit :=
  commits ← getCommits;
  match commits with
  | [] => Println "No commits yet."
  | _ =>
      c ← at_index commits 0;
      show c;;
      for_each (seq 1 (length commits - 1))
        (λ i, Println "";; c ← at_index commits i; show c)
  end.

(** [helpMsg[cmdCheckout]] *)
Definition doCheckout (args : list string) : Cmd unit :=
  Println "Restore a file.".

(** The functions that take a [*Commit] and assign a field return the
    commit as they leave it. *)
Definition computeHash (c : Commit) : Cmd Commit :=
  written ← hashed_bytes (Files c) "";
  mret (mkCommit (sha256_hex written) (Author c) (Message c) (Files c)).

Definition commitFiles (c : Commit) : Cmd unit :=
  for_each (Files c) (λ filename, copyFile (Hash c, filename) filename).

Definition logLine (c : Commit) : string :=
  Hash c +:+ " " +:+ Name (Author c) +:+ " " +:+ Message c +:+ nl.

Definition addLog (c : Commit) : Cmd unit :=
  ok ← OpenFile_append logFile;
  if ok : bool then WriteString logFile (logLine c) else log_Fatal.

Definition clearStage : Cmd unit :=
  err ← Truncate indexFile;
  match err with
  | Some e => if IsNotExist e then mret tt else log_Fatal
  | None => mret tt
  end.

Definition Save (c : Commit) : Cmd Commit :=
  c ← computeHash c;
  commitFiles c;;
  addLog c;;
  clearStage;;
  mret c.

Definition doCommit (args : list string) : Cmd unit :=
  match args with
  | [message] =>
      files ← getTrackedFiles;
      let commit := mkCommit "" (mkPerson "") message files in
      match files with
      | [] => Println "Nothing to commit."
      | _ =>
          r ← getUsername;
          match r.2 with
          | Some _ => Println "Please, tell me who are you."
          | None =>
              let commit := mkCommit (Hash commit) (mkPerson r.1)
                                     (Message commit) (Files commit) in
              Save commit;;
              Println "Changes are commited."
          end
      end
  | _ => Println "Message was not passed."
  end.

(** [main]: the commands, the help and the text of the switch are those of
    [src/main.go]. *)
Definition main (Args : list string) : Cmd unit :=
  match Args with
  | _ :: cmd :: args =>
      if decide (cmd = "--help") then Main.displayHelp
      else if decide (cmd = Main.cmdConfig) then doConfig args
      else if decide (cmd = Main.cmdAdd) then doAdd args
      else if decide (cmd = Main.cmdLog) then doLog
      else if decide (cmd = Main.cmdCommit) then doCommit args
      else if decide (cmd = Main.cmdCheckout) then doCheckout args
      else Printf ("'" +:+ cmd +:+ "' is not a SVCS command." +:+ nl)
  | _ => Main.displayHelp
  end.

End Part000.

(** ** src/main.go, second program: the revision before the snapshot engine *)

Module Stage2.

(** [config], [setUsername] and [getUsername] have the text of [doConfig],
    [setUsername] and [getUsername] of the first program. *)
Definition config : list string → Cmd unit := doConfig.

Definition displayTracking : Cmd unit :=
  file ← OpenVcs indexFile;
  match file with
  | None => Println "Add a file to the index."
  | Some data =>
      Println "Tracked files:";;
      for_each (Bufio.scan data).1 Println
  end.

Definition add (args : list string) : Cmd unit :=
  match args with
  | [filename] =>
      MkdirAll_vcsDir;;
      found ← Stat filename;
      if found : bool then
        ok ← OpenFile_append indexFile;
        if ok : bool then
          WriteString indexFile (filename +:+ nl);;
          Printf ("The file '" +:+ filename +:+ "' is tracked.")
        else panic
      else Printf ("Can't find '" +:+ filename +:+ "'." +:+ nl)
  | _ => displayTracking
  end.

(** [// todo: stub] *)
Definition log (args : list string) : Cmd unit := mret tt.
Definition commit (args : list string) : Cmd unit := mret tt.
Definition checkout (args : list string) : Cmd unit := mret tt.

Definition main (Args : list string) : Cmd unit :=
  match Args with
  | _ :: cmd :: args =>
      if decide (cmd = "--help") then Main.displayHelp
      else if decide (cmd = Main.cmdConfig) then config args
      else if decide (cmd = Main.cmdAdd) then add args
      else if decide (cmd = Main.cmdLog) then log args
      else if decide (cmd = Main.cmdCommit) then commit args
      else if decide (cmd = Main.cmdCheckout) then checkout args
      else Printf ("'" +:+ cmd +:+ "' is not a SVCS command." +:+ nl)
  | _ => Main.displayHelp
  end.

End Stage2.

(** ** src/unnamed/part_001: the first revision, [config] alone *)

Module Part001.

(** The sentence ends in no period. *)
Definition config (args : list string) : Cmd unit :=
  match args with
  | [username] => setUsername username
  | _ => mret tt
  end;;
  r ← getUsername;
  match r.2 with
  | None => Printf ("The username is " +:+ r.1 +:+ nl)
  | Some _ => Println "Please, tell me who you are."
  end.

(** [// todo: stub] *)
Definition add (args : list string) : Cmd unit := mret tt.
Definition log (args : list string) : Cmd unit := mret tt.
Definition commit (args : list string) : Cmd unit := mret tt.
Definition checkout (args : list string) : Cmd unit := mret tt.

Definition main (Args : list string) : Cmd unit :=
  match Args with
  | _ :: cmd :: args =>
      if decide (cmd = "--help") then Main.displayHelp
      else if decide (cmd = Main.cmdConfig) then config args
      else if decide (cmd = Main.cmdAdd) then add args
      else if decide (cmd = Main.cmdLog) then log args
      else if decide (cmd = Main.cmdCommit) then commit args
      else if decide (cmd = Main.cmdCheckout) then checkout args
      else Printf ("'" +:+ cmd +:+ "' is not a SVCS command." +:+ nl)
  | _ => Main.displayHelp
  end.

End Part001.

(** ** Vocabulary of the properties *)

Global Arguments sha256_hex : simpl never.

Definition printed (s : string) (w : World) : World :=
  mkWorld (disk w) (stdout w +:+ s).

(** The value a command returns, if it returns. *)
Definition result {A} (r : Res A) : option A :=
  match r with
  | Done a _ => Some a
  | Stopped _ _ => None
  end.

(** The world a command leaves, however it ends. *)
Definition after {A} (r : Res A) : World :=
  match r with
  | Done _ w => w
  | Stopped _ w => w
  end.

(** The world once [s] is appended to the file [f] of [./vcs], created if
    need be. *)
Definition appended (f : vcsFile) (s : string) (w : World) : World :=
  match vcsDir (disk w) with
  | None => w
  | Some v => set_vcs (vset f (default "" (vget f v) +:+ s) v) w
  end.

(** The world once the index file, if there is one, is truncated. *)
Definition cleared (w : World) : World :=
  match vcsDir (disk w) with
  | None => w
  | Some v =>
      match index_txt v with
      | None => w
      | Some _ => set_vcs (vset indexFile "" v) w
      end
  end.

(** The world once [bytes] is the content of [filename] in the directory
    of [hash] under [commitsDir]. *)
Definition put (hash filename bytes : string) (w : World) : World :=
  let v := default emptyVcs (vcsDir (disk w)) in
  let d := default ∅ (commitsDir v !! hash) in
  set_vcs (set_commits (<[hash := <[filename := bytes]> d]> (commitsDir v)) v) w.

(** The file [filename] of the working tree has its bytes in the directory
    of [hash]. *)
Definition stored (hash : string) (w : World) (filename : string) : Prop :=
  ∃ bytes d, tree (disk w) !! filename = Some (File bytes)
             ∧ snapshot hash w = Some d ∧ d !! filename = Some bytes.

(** [w'] differs from [w] under [commitsDir] at most, where nothing
    disappeared. *)
Definition store_grown (w w' : World) : Prop :=
  tree (disk w') = tree (disk w)
  ∧ stdout w' = stdout w
  ∧ (∀ f, content f w' = content f w)
  ∧ (is_Some (vcsDir (disk w)) → is_Some (vcsDir (disk w')))
  ∧ (∀ h, is_Some (snapshot h w) → is_Some (snapshot h w')).

(** What no command of [src/main.go] undoes: the working tree is as it
    was, a directory of the store holds what it held, and the log and the
    index hold what they held, followed by what was appended. *)
Definition kept (w w' : World) : Prop :=
  tree (disk w') = tree (disk w)
  ∧ (∀ h d, snapshot h w = Some d → snapshot h w' = Some d)
  ∧ (∀ data, content logFile w = Some data →
       ∃ more, content logFile w' = Some (data +:+ more))
  ∧ (∀ data, content indexFile w = Some data →
       ∃ more, content indexFile w' = Some (data +:+ more)).

(** The file [f] of [./vcs] holds no line or ends in a newline, and no line
    of it is too long for the scanner. *)
Definition intact (f : vcsFile) (w : World) : Prop :=
  match content f w with
  | None => True
  | Some data =>
      (Bufio.cut_lines data).2 = "" ∧ (Bufio.scan data).2 = None
  end.

(** How many times [c] occurs in [s]. *)
Fixpoint count_char (c : ascii) (s : string) : nat :=
  match s with
  | EmptyString => 0
  | String c' rest => (if decide (c' = c) then 1 else 0) + count_char c rest
  end.

(** Every byte of [s] is one of [0-9a-f]. *)
Fixpoint lower_hex (s : string) : bool :=
  match s with
  | EmptyString => true
  | String c rest =>
      bool_decide (c ∈ ["0"; "1"; "2"; "3"; "4"; "5"; "6"; "7";
                        "8"; "9"; "a"; "b"; "c"; "d"; "e"; "f"]%char)
      && lower_hex rest
  end.

(** [c] occurs in [s]. *)
Fixpoint has (c : ascii) (s : string) : bool :=
  match s with
  | EmptyString => false
  | String c' rest => if decide (c' = c) then true else has c rest
  end.

Definition space : ascii := " "%char.
Definition newline : ascii := "010"%char.

(** The last byte of [s] is a carriage return. *)
Fixpoint ends_with_cr (s : string) : bool :=
  match s with
  | EmptyString => false
  | String c rest =>
      match rest with
      | EmptyString => bool_decide (c = "013"%char)
      | _ => ends_with_cr rest
      end
  end.

(** The three fields that both [getCommits] take from a line of the log. *)
Definition fields (line : string) : option (string * string * string) :=
  let data := Strings.SplitN line space 3 in
  hash ← data !! 0; name ← data !! 1; message ← data !! 2;
  Some (hash, name, message).

(** A regular file of the working tree. *)
Definition readable (w : World) (filename : string) : Prop :=
  ∃ bytes, tree (disk w) !! filename = Some (File bytes).

(** The bytes of the files, in order, directories and missing files
    counting for nothing. *)
Fixpoint bytes_in (t : gmap string node) (files : list string) : string :=
  match files with
  | [] => ""
  | filename :: rest =>
      match t !! filename with
      | Some (File bytes) => bytes +:+ bytes_in t rest
      | _ => bytes_in t rest
      end
  end.

(** The staged sequence: what [getTrackedFiles] returns. *)
Definition staged (w : World) : list string :=
  match content indexFile w with
  | None => []
  | Some data => (Bufio.scan data).1
  end.

(** The hash that [computeHash] gives for the staged files, when each of
    them is a regular file. *)
Definition digest (w : World) : string :=
  sha256_hex (bytes_in (tree (disk w)) (staged w)).

(** A plain name: the name of an entry of the working directory, with no
    separator in it, other than [vcs].  [filepath.Join] leaves such a name
    as it is, and a destination made of it lies in the directory it is
    joined to. *)
Definition plain (filename : string) : bool :=
  negb (has "/"%char filename)
  && bool_decide (filename ∉ [""; "."; ".."; "vcs"]).

(** Every staged name is plain. *)
Definition plain_staged (w : World) : Prop :=
  Forall (λ filename, plain filename = true) (staged w).

(** What [show] prints for a commit of hash [h], author [a], message [m]. *)
Definition record (h a m : string) : string :=
  "commit " +:+ h +:+ nl +:+ "Author: " +:+ a +:+ nl +:+ m +:+ nl.

Module MainSpec.
Import Main.

Definition record_of (c : Commit) : string :=
  record (Hash c) (Username c) (Message c).

(** The records of the commits in the order of the list, a blank line
    between two of them. *)
Definition listing (cs : list Commit) : string :=
  match cs with
  | [] => ""
  | c :: rest => record_of c +:+ foldr (λ c acc, nl +:+ record_of c +:+ acc) "" rest
  end.

(** What [log] prints when the log reads as [cs], first entry of the list
    first. *)
Definition history (cs : list Commit) : string :=
  match cs with
  | [] => "No commits yet." +:+ nl
  | _ => listing cs
  end.

(** The line of the log without its newline. *)
Definition raw_line (c : Commit) : string :=
  Hash c +:+ " " +:+ Username c +:+ " " +:+ Message c.

(** The bytes of a log that [addLog] has written for the commits [cs], one
    after the other, starting from no file or from an empty one. *)
Definition written (cs : list Commit) : string :=
  foldr (λ c acc, logLine c +:+ acc) "" cs.

(** The commits whose line of the log reads back as written: no space and
    no newline in the hash and in the author, no newline in the message and
    no carriage return at its end, and a line that fits the buffer of the
    scanner. *)
Definition storable (c : Commit) : bool :=
  negb (has space (Hash c)) && negb (has newline (Hash c))
  && negb (has space (Username c)) && negb (has newline (Username c))
  && negb (has newline (Message c)) && negb (ends_with_cr (Message c))
  && Bufio.fits (raw_line c).

(** The log file holds no line or ends in a newline, and no line of it is
    too long for the scanner. *)
Definition log_intact (w : World) : Prop :=
  match content logFile w with
  | None => True
  | Some data =>
      (Bufio.cut_lines data).2 = "" ∧ (Bufio.scan data).2 = None
  end.

(** The commit that [getCommits] makes of a line, when the line has its
    three fields. *)
Definition parse (line : string) : option Commit :=
  (λ '(h, a, m), mkCommit h a m) <$> fields line.

(** The commit of [src/unnamed/part_000] that a line of the log gives. *)
Definition upgrade (c : Commit) : Part000.Commit :=
  Part000.mkCommit (Hash c) (Part000.mkPerson (Username c)) (Message c) [].

End MainSpec.

(** ** Concrete worlds *)

Definition hello_hash : string :=
  "2cf24dba5fb0a30e26e83b2ac5b9e29e1b161e5c1fa7425e73043362938b9824".
Definition empty_hash : string :=
  "e3b0c44298fc1c149afbf4c8996fb92427ae41e4649b934ca495991b7852b855".

(** A working tree holding [a.txt], and no [./vcs]. *)
Definition world0 : World :=
  mkWorld (mkDisk {[ "a.txt" := File "hello" ]} None) "".

(** A working tree holding [a.txt], an identity, nothing staged. *)
Definition fresh (identity : string) : World :=
  mkWorld (mkDisk {[ "a.txt" := File "hello" ]}
                  (Some (mkVcs (Some identity) None None ∅))) "".

(** [a.txt] staged by [add]. *)
Definition staged_a (identity : string) : World :=
  mkWorld (mkDisk {[ "a.txt" := File "hello" ]}
                  (Some (mkVcs (Some identity) (Some ("a.txt" +:+ nl)) None ∅))) "".

(** [a.txt] committed by [commit first] of [src/main.go]. *)
Definition committed_a (identity : string) : World :=
  mkWorld
    (mkDisk {[ "a.txt" := File "hello" ]}
       (Some (mkVcs (Some identity) (Some ("a.txt" +:+ nl))
                (Some (hello_hash +:+ " " +:+ identity +:+ " first" +:+ nl))
                {[ hello_hash := {[ "a.txt" := "hello" ]} ]})))
    "".

(** The same by [src/unnamed/part_000]: the index is truncated. *)
Definition committed_a_cleared (identity : string) : World :=
  mkWorld
    (mkDisk {[ "a.txt" := File "hello" ]}
       (Some (mkVcs (Some identity) (Some "")
                (Some (hello_hash +:+ " " +:+ identity +:+ " first" +:+ nl))
                {[ hello_hash := {[ "a.txt" := "hello" ]} ]})))
    "".

(** A directory [docs] staged beside nothing else. *)
Definition staged_dir : World :=
  mkWorld (mkDisk {[ "docs" := Dir ]}
                  (Some (mkVcs (Some "alice") (Some ("docs" +:+ nl)) None ∅))) "".

(** [a.txt] and [b.txt] staged, holding [a] and [b]. *)
Definition staged_ab (a b : string) (store : gmap string (gmap string string)) : World :=
  mkWorld (mkDisk (<["a.txt" := File a]> {[ "b.txt" := File b ]})
                  (Some (mkVcs (Some "alice")
                           (Some ("a.txt" +:+ nl +:+ "b.txt" +:+ nl)) None store))) "".

(** [a.txt] and [b.txt], holding [a] and [b], after [commit first] of
    [src/main.go] has stored them as ["hello"] and the empty file. *)
Definition committed_ab (a b : string) : World :=
  mkWorld
    (mkDisk (<["a.txt" := File a]> {[ "b.txt" := File b ]})
       (Some (mkVcs (Some "alice") (Some ("a.txt" +:+ nl +:+ "b.txt" +:+ nl))
                (Some (hello_hash +:+ " alice first" +:+ nl))
                {[ hello_hash := <["a.txt" := "hello"]> {[ "b.txt" := "" ]} ]})))
    "".

(** A log whose second line has one field: what [commit] writes for a
    message of two lines. *)
Definition broken_log : World :=
  mkWorld
    (mkDisk {[ "a.txt" := File "hello" ]}
       (Some (mkVcs (Some "alice") (Some ("a.txt" +:+ nl))
                (Some (hello_hash +:+ " alice x" +:+ nl +:+ "y" +:+ nl))
                {[ hello_hash := {[ "a.txt" := "hello" ]} ]})))
    "".

(** A message of 64 KiB: as long as the buffer of the scanner. *)
Definition long_message : string :=
  N.iter Bufio.MaxScanTokenSize (String "a"%char) "".

(** The user overwrites [a.txt]. *)
Definition edit_a (bytes : string) (w : World) : World :=
  set_tree (<["a.txt" := File bytes]> (tree (disk w))) (mkWorld (disk w) "").

(** * Properties *)

(** ** The library model on examples *)

Example sha256_empty :
  sha256_hex "" = "e3b0c44298fc1c149afbf4c8996fb92427ae41e4649b934ca495991b7852b855".
Proof. vm_compute. reflexivity. Qed.

Example sha256_abc :
  sha256_hex "abc" = "ba7816bf8f01cfea414140de5dae2223b00361a396177a9cb410ff61f20015ad".
Proof. vm_compute. reflexivity. Qed.

Example sha256_hello :
  sha256_hex "hello" = "2cf24dba5fb0a30e26e83b2ac5b9e29e1b161e5c1fa7425e73043362938b9824".
Proof. vm_compute. reflexivity. Qed.

Example sha256_two_blocks :
  sha256_hex "zzzzzzzzzzzzzzzzzzzzzzzzzzzzzzzzzzzzzzzzzzzzzzzzzzzzzzzzzzzzzzzzzzzzzzzzzzzzzzzzzzzzzzzzzzzzzzzzzzzzzzzzzzzzzzzzzzzzzzz"
  = "de05957e72aca438f9b0c770cb2ee7fa0e58e08eb54536478db136d54c097abb".
Proof. vm_compute. reflexivity. Qed.

Example scan_two_lines :
  Bufio.scan ("a.txt" +:+ nl +:+ "b c" +:+ String "013"%char nl +:+ "tail")
  = (["a.txt"; "b c"; "tail"], None).
Proof. vm_compute. reflexivity. Qed.

Example scan_empty : Bufio.scan "" = ([], None).
Proof. reflexivity. Qed.

Example scan_blank_line : Bufio.scan (nl +:+ nl) = ([""; ""], None).
Proof. vm_compute. reflexivity. Qed.

Example splitn_message :
  Strings.SplitN "h alice fix the  bug" " "%char 3 = ["h"; "alice"; "fix the  bug"].
Proof. reflexivity. Qed.

Example splitn_short : Strings.SplitN "word" " "%char 3 = ["word"].
Proof. reflexivity. Qed.


Example commit_first_main :
  Main.doCommit ["first"] (staged_a "alice")
  = Done tt (printed ("Changes are committed." +:+ nl) (committed_a "alice")).
Proof. vm_compute. reflexivity. Qed.

Example commit_first_part000 :
  Part000.doCommit ["first"] (staged_a "alice")
  = Done tt (printed ("Changes are commited." +:+ nl) (committed_a_cleared "alice")).
Proof. vm_compute. reflexivity. Qed.

Example config_alice :
  doConfig ["alice"] world0
  = Done tt (printed ("The username is alice." +:+ nl) (fresh "alice")).
Proof. vm_compute. reflexivity. Qed.

Example config_empty :
  doConfig [""] world0
  = Done tt (printed ("The username is ." +:+ nl) (fresh "")).
Proof. vm_compute. reflexivity. Qed.

Example add_a_main :
  Main.doAdd ["a.txt"] (fresh "alice")
  = Done tt (printed ("The file 'a.txt' is tracked." +:+ nl) (staged_a "alice")).
Proof. vm_compute. reflexivity. Qed.

(** ** Strings *)

Lemma sapp_cons (c : ascii) (s t : string) : String c s +:+ t = String c (s +:+ t).
Proof. reflexivity. Qed.

Lemma sapp_nil_l (s : string) : "" +:+ s = s.
Proof. reflexivity. Qed.

Lemma sapp_nil_r (s : string) : s +:+ "" = s.
Proof. induction s as [|c s IH]; [reflexivity|]. rewrite sapp_cons, IH. reflexivity. Qed.

Lemma sapp_assoc (s t u : string) : (s +:+ t) +:+ u = s +:+ t +:+ u.
Proof.
  induction s as [|c s IH]; [reflexivity|]. rewrite !sapp_cons, IH. reflexivity.
Qed.

Lemma length_sapp (s t : string) :
  String.length (s +:+ t) = String.length s + String.length t.
Proof.
  induction s as [|c s IH]; [reflexivity|]. rewrite sapp_cons. simpl. rewrite IH. reflexivity.
Qed.

(** ** Running commands *)

Lemma bind_run {A B} (m : Cmd A) (f : A → Cmd B) (w : World) :
  (m ≫= f) w = match m w with
               | Done a w' => f a w'
               | Stopped s w' => Stopped s w'
               end.
Proof. reflexivity. Qed.

Lemma bind_Done {A B} (m : Cmd A) (f : A → Cmd B) (w w' : World) (a : A) :
  m w = Done a w' → (m ≫= f) w = f a w'.
Proof. intros H. rewrite bind_run, H. reflexivity. Qed.

Lemma bind_Stopped {A B} (m : Cmd A) (f : A → Cmd B) (w w' : World) (s : Stop) :
  m w = Stopped s w' → (m ≫= f) w = Stopped s w'.
Proof. intros H. rewrite bind_run, H. reflexivity. Qed.

Lemma gets_run {A} (f : World → A) (w : World) : gets f w = Done (f w) w.
Proof. reflexivity. Qed.

Lemma Printf_run (s : string) (w : World) : Printf s w = Done tt (printed s w).
Proof. reflexivity. Qed.

Lemma Println_run (s : string) (w : World) :
  Println s w = Done tt (printed (s +:+ nl) w).
Proof. reflexivity. Qed.

Lemma printed_printed (s t : string) (w : World) :
  printed t (printed s w) = printed (s +:+ t) w.
Proof. unfold printed. simpl. rewrite sapp_assoc. reflexivity. Qed.

Lemma content_printed (f : vcsFile) (s : string) (w : World) :
  content f (printed s w) = content f w.
Proof. reflexivity. Qed.

Lemma at_index_run {A} (xs : list A) (i : nat) (w : World) :
  at_index xs i w = match xs !! i with
                    | Some x => Done x w
                    | None => Stopped Panic w
                    end.
Proof. unfold at_index. destruct (xs !! i); reflexivity. Qed.

(** A loop whose body reads nothing of the world and changes nothing of it
    is a traversal in the option monad. *)
Lemma map_each_pure {A B} (body : A → Cmd B) (g : A → option B) (xs : list A) (w : World) :
  (∀ x w, body x w = match g x with
                     | Some y => Done y w
                     | None => Stopped Panic w
                     end) →
  map_each xs body w = match mapM g xs with
                       | Some ys => Done ys w
                       | None => Stopped Panic w
                       end.
Proof.
  intros Hbody. induction xs as [|x xs IH]; [reflexivity|].
  simpl. rewrite bind_run, Hbody.
  destruct (g x) as [y|]; simpl; [|reflexivity].
  rewrite bind_run, IH.
  destruct (mapM g xs); reflexivity.
Qed.

Lemma getTrackedFiles_run (w : World) :
  getTrackedFiles w
  = Done (match content indexFile w with
          | None => []
          | Some data => (Bufio.scan data).1
          end) w.
Proof.
  unfold getTrackedFiles. rewrite bind_run. unfold OpenVcs. rewrite gets_run.
  destruct (content indexFile w); reflexivity.
Qed.

Lemma getUsername_run (w : World) :
  getUsername w
  = Done (match content configFile w with
          | None => ("", Some ErrNotExist)
          | Some data => ((Bufio.scan_once data).1, ErrScan <$> (Bufio.scan_once data).2)
          end) w.
Proof.
  unfold getUsername. rewrite bind_run. unfold OpenVcs. rewrite gets_run.
  destruct (content configFile w) as [data|]; [|reflexivity].
  destruct (Bufio.scan_once data); reflexivity.
Qed.

(** *** Reading the log *)

Lemma Main_parseLine_run (line : string) (w : World) :
  Main.parseLine line w
  = match fields line with
    | Some (h, a, m) => Done (Main.mkCommit h a m) w
    | None => Stopped Panic w
    end.
Proof.
  unfold Main.parseLine, fields, space.
  generalize (Strings.SplitN line " " 3). intros data.
  rewrite bind_run, at_index_run.
  destruct (data !! 0) as [h|]; simpl; [|reflexivity].
  rewrite bind_run, at_index_run.
  destruct (data !! 1) as [a|]; simpl; [|reflexivity].
  rewrite bind_run, at_index_run.
  destruct (data !! 2) as [m|]; reflexivity.
Qed.

Lemma Main_getCommits_run (w : World) :
  Main.getCommits w
  = match content logFile w with
    | None => Done [] w
    | Some data =>
        match mapM MainSpec.parse (Bufio.scan data).1 with
        | Some cs => Done cs w
        | None => Stopped Panic w
        end
    end.
Proof.
  unfold Main.getCommits. rewrite bind_run. unfold OpenVcs. rewrite gets_run.
  destruct (content logFile w) as [data|]; [|reflexivity].
  apply map_each_pure. intros line w'. rewrite Main_parseLine_run.
  unfold MainSpec.parse. destruct (fields line) as [[[h a] m]|]; reflexivity.
Qed.

Lemma Main_getCommits_pure (w w' : World) (cs : list Main.Commit) :
  Main.getCommits w = Done cs w' → w' = w.
Proof.
  rewrite Main_getCommits_run.
  destruct (content logFile w) as [data|]; [|congruence].
  destruct (mapM _ _); congruence.
Qed.

Lemma Part000_parseLine_run (line : string) (w : World) :
  Part000.parseLine line w
  = match MainSpec.upgrade <$> MainSpec.parse line with
    | Some c => Done c w
    | None => Stopped Panic w
    end.
Proof.
  unfold Part000.parseLine, MainSpec.parse, fields, space.
  generalize (Strings.SplitN line " " 3). intros data.
  rewrite bind_run, at_index_run.
  destruct (data !! 0) as [h|]; simpl; [|reflexivity].
  rewrite bind_run, at_index_run.
  destruct (data !! 1) as [a|]; simpl; [|reflexivity].
  rewrite bind_run, at_index_run.
  destruct (data !! 2) as [m|]; reflexivity.
Qed.

Lemma mapM_fmap_option {A B C} (g : A → option B) (h : B → C) (xs : list A) :
  mapM (λ x, h <$> g x) xs = (fmap h) <$> mapM g xs.
Proof.
  induction xs as [|x xs IH]; [reflexivity|].
  simpl. destruct (g x) as [y|]; simpl; [|reflexivity].
  rewrite IH. destruct (mapM g xs); reflexivity.
Qed.

Lemma Part000_getCommits_run (w : World) :
  Part000.getCommits w
  = match content logFile w with
    | None => Done [] w
    | Some data =>
        match mapM MainSpec.parse (Bufio.scan data).1 with
        | Some cs => Done (rev (MainSpec.upgrade <$> cs)) w
        | None => Stopped Panic w
        end
    end.
Proof.
  unfold Part000.getCommits. rewrite bind_run. unfold OpenVcs. rewrite gets_run.
  destruct (content logFile w) as [data|]; [|reflexivity].
  rewrite bind_run.
  rewrite (map_each_pure _ (λ line, MainSpec.upgrade <$> MainSpec.parse line))
    by apply Part000_parseLine_run.
  rewrite mapM_fmap_option.
  destruct (mapM MainSpec.parse (Bufio.scan data).1); reflexivity.
Qed.

(** The two revisions read the same log: the later one in the order of the
    file, the earlier one reversed. *)
Lemma Part000_getCommits_Main (w : World) (cs : list Main.Commit) :
  Main.getCommits w = Done cs w →
  Part000.getCommits w = Done (rev (MainSpec.upgrade <$> cs)) w.
Proof.
  rewrite Main_getCommits_run, Part000_getCommits_run.
  destruct (content logFile w) as [data|].
  - destruct (mapM _ _); [|discriminate]. intros [= <-]. reflexivity.
  - intros [= <-]. reflexivity.
Qed.

(** ** C7 *)

Lemma plain_other (filename : string) :
  plain filename = true →
  has "/"%char filename = false
  ∧ filename ≠ "" ∧ filename ≠ "." ∧ filename ≠ ".." ∧ filename ≠ "vcs".
Proof.
  unfold plain. rewrite andb_true_iff, negb_true_iff, bool_decide_eq_true.
  intros [Hsep Hnot]. split; [exact Hsep|].
  repeat split; intros ->; apply Hnot; set_solver.
Qed.




(** ** C6 *)

Lemma find_in_absent (cs : list Main.Commit) (hash : string) :
  Forall (λ c, Main.Hash c ≠ hash) cs → (Main.find_in cs hash).2 = false.
Proof.
  induction 1 as [|c cs Hc _ IH]; [reflexivity|].
  simpl. destruct (decide (Main.Hash c = hash)); [contradiction|assumption].
Qed.

(** ** C10 *)

(** C10. Every commit that [getCommits] of [src/unnamed/part_000] builds
    from the log has an empty [Files]; and the line that [addLog] writes for
    a commit does not depend on its [Files]. *)
Theorem log_commits_have_no_files (w w' : World) (cs : list Part000.Commit) :
  Part000.getCommits w = Done cs w' →
  Forall (λ c, Part000.Files c = []) cs
  ∧ ∀ c files,
      Part000.logLine
        (Part000.mkCommit (Part000.Hash c) (Part000.Author c) (Part000.Message c) files)
      = Part000.logLine c.
Proof.
  rewrite Part000_getCommits_run. intros Hread. split; [|reflexivity].
  destruct (content logFile w) as [data|].
  - destruct (mapM _ _) as [cs0|]; [|discriminate].
    injection Hread as <- _.
    apply Forall_rev, Forall_fmap, Forall_true. reflexivity.
  - injection Hread as <- _. constructor.
Qed.

Lemma log_commits_have_no_files_witness :
  Forall (λ c, Part000.Files c = [])
    [Part000.mkCommit hello_hash (Part000.mkPerson "alice") "first" []].
Proof.
  refine (proj1 (log_commits_have_no_files
    (committed_a_cleared "alice") (committed_a_cleared "alice") _ _)).
  vm_compute. reflexivity.
Defined.

(** ** C8 *)

(** C8 (as the code has it). When [getUsername] reports an error (no
    [config.txt], or a first line too long for the scanner), [commit] with a
    message prints a status and returns, and the disk is as it was: in
    [src/main.go] the status is "Please, tell me who are you."; in
    [src/unnamed/part_000] it is the same unless nothing is staged, which
    is tested first and reported as "Nothing to commit.". *)
Theorem commit_without_identity (w : World) (message name : string) (e : error) :
  getUsername w = Done (name, Some e) w →
  Main.doCommit [message] w
  = Done tt (printed ("Please, tell me who are you." +:+ nl) w)
  ∧ Part000.doCommit [message] w
    = Done tt (printed (match result (getTrackedFiles w) with
                        | Some [] => "Nothing to commit."
                        | _ => "Please, tell me who are you."
                        end +:+ nl) w).
Proof.
  intros Hname. split.
  - unfold Main.doCommit. rewrite bind_run, Hname. simpl. apply Println_run.
  - unfold Part000.doCommit. rewrite bind_run, getTrackedFiles_run. simpl.
    destruct (match content indexFile w with
              | Some data => (Bufio.scan data).1
              | None => []
              end) as [|file files].
    + apply Println_run.
    + rewrite bind_run, Hname. simpl. apply Println_run.
Qed.

Lemma commit_without_identity_witness :
  Main.doCommit ["first"] world0
  = Done tt (printed ("Please, tell me who are you." +:+ nl) world0)
  ∧ Part000.doCommit ["first"] world0
    = Done tt (printed (match result (getTrackedFiles world0) with
                        | Some [] => "Nothing to commit."
                        | _ => "Please, tell me who are you."
                        end +:+ nl) world0).
Proof.
  apply (commit_without_identity world0 "first" "" ErrNotExist).
  reflexivity.
Defined.

(** C8 fails as stated: with an identity that is configured and empty (the
    file that [config] with an empty argument writes), [getUsername] reports
    no error and both revisions commit, under an empty author. *)
Lemma commit_with_empty_identity :
  getUsername (staged_a "") = Done ("", None) (staged_a "")
  ∧ Main.doCommit ["first"] (staged_a "")
    = Done tt (printed ("Changes are committed." +:+ nl) (committed_a ""))
  ∧ Part000.doCommit ["first"] (staged_a "")
    = Done tt (printed ("Changes are commited." +:+ nl) (committed_a_cleared ""))
  ∧ content logFile (staged_a "") = None
  ∧ content logFile (committed_a "") = Some (hello_hash +:+ "  first" +:+ nl)
  ∧ content logFile (committed_a_cleared "") = Some (hello_hash +:+ "  first" +:+ nl).
Proof. vm_compute. repeat split; reflexivity. Qed.

(** ** Committing *)

(** *** What the hash is computed from *)

Lemma hashed_bytes_run (files : list string) (written : string) (w : World) :
  Forall (readable w) files →
  hashed_bytes files written w
  = Done (written +:+ bytes_in (tree (disk w)) files) w.
Proof.
  intros Hfiles. revert written.
  induction Hfiles as [|filename files [bytes Hfile] _ IH]; intros written.
  - simpl. rewrite sapp_nil_r. reflexivity.
  - simpl. rewrite bind_run. unfold Open. rewrite gets_run, Hfile. simpl.
    rewrite IH, sapp_assoc. reflexivity.
Qed.

(** *** What the store receives *)

Lemma put_tree (h f b : string) (w : World) : tree (disk (put h f b w)) = tree (disk w).
Proof. reflexivity. Qed.

Lemma put_stdout (h f b : string) (w : World) : stdout (put h f b w) = stdout w.
Proof. reflexivity. Qed.

Lemma put_content (h f b : string) (g : vcsFile) (w : World) :
  content g (put h f b w) = content g w.
Proof.
  unfold content, put. simpl. destruct (vcsDir (disk w)) as [v|]; destruct g; reflexivity.
Qed.

Lemma put_snapshot (h f b h' : string) (w : World) :
  snapshot h' (put h f b w)
  = if decide (h = h') then Some (<[f := b]> (default ∅ (snapshot h w)))
    else snapshot h' w.
Proof.
  unfold snapshot, put. simpl.
  destruct (decide (h = h')) as [<-|Hne].
  - rewrite lookup_insert_eq. destruct (vcsDir (disk w)); reflexivity.
  - rewrite lookup_insert_ne by assumption.
    destruct (vcsDir (disk w)); [reflexivity|apply lookup_empty].
Qed.

Lemma put_grown (h f b : string) (w : World) : store_grown w (put h f b w).
Proof.
  repeat split.
  - intros g. apply put_content.
  - intros _. eexists. reflexivity.
  - intros h' Hsome. rewrite put_snapshot. destruct (decide (h = h')); [eexists; reflexivity|assumption].
Qed.

Lemma store_grown_refl (w : World) : store_grown w w.
Proof. repeat split; auto. Qed.

Lemma store_grown_trans (w1 w2 w3 : World) :
  store_grown w1 w2 → store_grown w2 w3 → store_grown w1 w3.
Proof.
  intros (Ht & Ho & Hc & Hv & Hs) (Ht' & Ho' & Hc' & Hv' & Hs').
  repeat split; try congruence; auto.
Qed.

Lemma MkdirAll_commit_run (hash : string) (w : World) :
  ∃ w', MkdirAll_commit hash w = Done tt w'
        ∧ store_grown w w'
        ∧ (∀ h, h ≠ hash → snapshot h w' = snapshot h w)
        ∧ snapshot hash w' = Some (default ∅ (snapshot hash w)).
Proof.
  unfold MkdirAll_commit, modify, store_grown.
  destruct w as [[t [v|]] out]; unfold snapshot, content; simpl.
  - destruct (commitsDir v !! hash) as [d|] eqn:Hd; simpl;
      eexists; (split; [reflexivity|]); simpl.
    + repeat split; auto.
    + rewrite lookup_insert_eq. repeat split; auto.
      * intros h [d Hh]. destruct (decide (hash = h)) as [<-|Hne]; [congruence|].
        rewrite lookup_insert_ne by assumption. eauto.
      * intros h Hne. rewrite lookup_insert_ne by congruence. reflexivity.
  - rewrite lookup_empty. eexists. split; [reflexivity|]. simpl.
    rewrite lookup_insert_eq. repeat split; eauto.
    + intros f. destruct f; reflexivity.
    + intros h [d Hh]. discriminate.
    + intros h Hne. rewrite lookup_insert_ne by congruence. apply lookup_empty.
Qed.

Lemma copyFile_run (hash filename bytes : string) (w : World) :
  tree (disk w) !! filename = Some (File bytes) →
  ∃ w', copyFile (hash, filename) filename w = Done tt w'
        ∧ store_grown w w'
        ∧ (∀ h, h ≠ hash → snapshot h w' = snapshot h w)
        ∧ snapshot hash w' = Some (<[filename := bytes]> (default ∅ (snapshot hash w))).
Proof.
  intros Hfile. unfold copyFile. simpl.
  destruct (MkdirAll_commit_run hash w) as (w1 & Hrun & Hgrown & Hother & Hdir).
  rewrite bind_run, Hrun, bind_run. unfold Open. rewrite gets_run.
  destruct Hgrown as (Ht & Ho & Hc & Hv & Hs).
  rewrite Ht, Hfile. simpl.
  rewrite bind_run. unfold write_commit, modify.
  eexists. split; [reflexivity|].
  fold (put hash filename "" w1).
  fold (put hash filename bytes (put hash filename "" w1)).
  split; [|split].
  - eapply store_grown_trans; [|apply put_grown].
    eapply store_grown_trans; [|apply put_grown].
    repeat split; auto.
  - intros h Hne. rewrite !put_snapshot.
    destruct (decide (hash = h)); [congruence|]. auto.
  - rewrite !put_snapshot. destruct (decide (hash = hash)); [|congruence].
    simpl. rewrite insert_insert_eq, Hdir. reflexivity.
Qed.

Lemma readable_same_tree (w w' : World) (filename : string) :
  tree (disk w') = tree (disk w) → readable w filename → readable w' filename.
Proof. unfold readable. intros ->. auto. Qed.

Lemma commit_loop (hash : string) (files : list string) (w : World) :
  Forall (readable w) files →
  ∃ w', for_each files (λ filename, copyFile (hash, filename) filename) w = Done tt w'
        ∧ store_grown w w'
        ∧ (∀ h, h ≠ hash → snapshot h w' = snapshot h w)
        ∧ (files ≠ [] → is_Some (snapshot hash w'))
        ∧ (∀ f, stored hash w f → stored hash w' f)
        ∧ (∀ f, f ∈ files → stored hash w' f).
Proof.
  intros Hfiles. revert w Hfiles.
  induction files as [|filename files IH]; intros w Hfiles.
  - exists w. split; [reflexivity|]. split; [apply store_grown_refl|].
    split; [reflexivity|]. split; [intros H; contradiction|].
    split; [auto|]. intros f Hf. inversion Hf.
  - apply Forall_cons in Hfiles as [[bytes Hfile] Hrest].
    destruct (copyFile_run hash filename bytes w Hfile)
      as (w1 & Hcopy & Hgrown1 & Hother1 & Hdir1).
    assert (Htree1 : tree (disk w1) = tree (disk w)) by apply Hgrown1.
    destruct (IH w1) as (w' & Hloop & Hgrown & Hother & _ & Hkeep & Hall).
    { eapply Forall_impl; [exact Hrest|]. intros f. apply readable_same_tree, Htree1. }
    assert (Hkeep1 : ∀ f, stored hash w f → stored hash w1 f).
    { intros f (b & d & Hf & Hd & Hdf). exists b. eexists.
      split; [congruence|]. split; [exact Hdir1|].
      rewrite Hd. simpl. destruct (decide (filename = f)) as [->|Hne].
      - rewrite lookup_insert_eq. congruence.
      - rewrite lookup_insert_ne by assumption. exact Hdf. }
    assert (Hnew : stored hash w1 filename).
    { exists bytes. eexists. split; [congruence|]. split; [exact Hdir1|].
      apply lookup_insert_eq. }
    exists w'. split.
    { simpl. rewrite bind_run, Hcopy. exact Hloop. }
    split; [eapply store_grown_trans; eassumption|].
    split; [intros h Hne; rewrite Hother, Hother1 by assumption; reflexivity|].
    split; [intros _; apply Hgrown; rewrite Hdir1; eauto|].
    split; [auto|].
    intros f Hf. apply elem_of_cons in Hf as [->|Hf]; auto.
Qed.

Lemma ret_run {A} (a : A) (w : World) : (mret a : Cmd A) w = Done a w.
Proof. reflexivity. Qed.

Lemma stdout_printed (s : string) (w : World) : stdout (printed s w) = stdout w +:+ s.
Proof. reflexivity. Qed.

Lemma tree_printed (s : string) (w : World) : tree (disk (printed s w)) = tree (disk w).
Proof. reflexivity. Qed.

Lemma snapshot_printed (h s : string) (w : World) :
  snapshot h (printed s w) = snapshot h w.
Proof. reflexivity. Qed.

Lemma stored_printed (h s : string) (w : World) (filename : string) :
  stored h w filename → stored h (printed s w) filename.
Proof. auto. Qed.

(** *** What the log receives *)

Lemma append_run (f : vcsFile) (s : string) (w : World) :
  is_Some (vcsDir (disk w)) →
  (ok ← OpenFile_append f;
   if ok : bool then WriteString f s else log_Fatal) w
  = Done tt (appended f s w).
Proof.
  intros [v Hv]. rewrite bind_run. unfold OpenFile_append, appended.
  rewrite Hv. destruct (vget f v) as [data|] eqn:Hdata.
  - unfold WriteString, modify. rewrite Hv, Hdata. reflexivity.
  - unfold WriteString, modify. simpl.
    destruct w as [[t v'] out]. simpl in *. destruct f, v; simpl in *; subst; reflexivity.
Qed.

Lemma appended_tree (f : vcsFile) (s : string) (w : World) :
  tree (disk (appended f s w)) = tree (disk w).
Proof. unfold appended. destruct (vcsDir (disk w)); reflexivity. Qed.

Lemma appended_stdout (f : vcsFile) (s : string) (w : World) :
  stdout (appended f s w) = stdout w.
Proof. unfold appended. destruct (vcsDir (disk w)); reflexivity. Qed.

Lemma appended_snapshot (f : vcsFile) (s h : string) (w : World) :
  snapshot h (appended f s w) = snapshot h w.
Proof.
  unfold appended, snapshot. destruct (vcsDir (disk w)) as [v|] eqn:Hv; simpl.
  - destruct f; reflexivity.
  - rewrite Hv. reflexivity.
Qed.

Lemma appended_content (f : vcsFile) (s : string) (w : World) :
  is_Some (vcsDir (disk w)) →
  content f (appended f s w) = Some (default "" (content f w) +:+ s).
Proof.
  intros [v Hv]. unfold appended, content. rewrite Hv. simpl.
  destruct f; reflexivity.
Qed.

Lemma appended_content_other (f g : vcsFile) (s : string) (w : World) :
  g ≠ f → content g (appended f s w) = content g w.
Proof.
  intros Hne. unfold appended, content.
  destruct (vcsDir (disk w)) as [v|] eqn:Hv; simpl.
  - destruct f, g; try reflexivity; contradiction.
  - rewrite Hv. reflexivity.
Qed.

Lemma appended_stored (f : vcsFile) (s h : string) (w : World) (filename : string) :
  stored h w filename → stored h (appended f s w) filename.
Proof.
  unfold stored. rewrite appended_tree, appended_snapshot. auto.
Qed.

Create Rewrite HintDb world.
#[global] Hint Rewrite stdout_printed tree_printed content_printed snapshot_printed
  appended_tree appended_stdout appended_snapshot
  put_tree put_stdout put_content : world.

Lemma Main_addLog_run (c : Main.Commit) (w : World) :
  is_Some (vcsDir (disk w)) →
  Main.addLog c w = Done tt (appended logFile (Main.logLine c) w).
Proof. apply append_run. Qed.

Lemma Part000_addLog_run (c : Part000.Commit) (w : World) :
  is_Some (vcsDir (disk w)) →
  Part000.addLog c w = Done tt (appended logFile (Part000.logLine c) w).
Proof. apply append_run. Qed.

(** *** [commit] in src/main.go *)

Lemma getTrackedFiles_staged (w : World) : getTrackedFiles w = Done (staged w) w.
Proof. apply getTrackedFiles_run. Qed.

Lemma identity_has_vcs (w : World) (name : string) :
  getUsername w = Done (name, None) w → is_Some (vcsDir (disk w)).
Proof.
  rewrite getUsername_run. unfold content.
  destruct (vcsDir (disk w)) as [v|]; [eauto|]. simpl. intros [=].
Qed.

Lemma identity_same_config (w w' : World) (r : string * option error) :
  content configFile w' = content configFile w →
  getUsername w = Done r w → getUsername w' = Done r w'.
Proof. rewrite !getUsername_run. intros ->. intros [= <-]. reflexivity. Qed.

Lemma Main_computeHash_run (files : list string) (w : World) :
  Forall (readable w) files →
  Main.computeHash files w = Done (sha256_hex (bytes_in (tree (disk w)) files)) w.
Proof.
  intros Hfiles. unfold Main.computeHash.
  rewrite bind_run, hashed_bytes_run, sapp_nil_l by assumption. reflexivity.
Qed.

Lemma Main_saveCommit_seen (w : World) (username message : string) :
  Forall (readable w) (staged w) →
  is_Some (snapshot (digest w) w) →
  Main.saveCommit username message w = Done false w.
Proof.
  intros Hfiles Hseen. unfold Main.saveCommit.
  rewrite bind_run, getTrackedFiles_staged.
  rewrite bind_run, Main_computeHash_run by assumption.
  rewrite bind_run. unfold Main.hasChanges.
  rewrite bind_run. unfold StatCommit. rewrite gets_run. fold (digest w).
  rewrite bool_decide_eq_true_2 by assumption. reflexivity.
Qed.

Lemma Main_saveCommit_new (w : World) (username message : string) :
  Forall (readable w) (staged w) →
  snapshot (digest w) w = None →
  is_Some (vcsDir (disk w)) →
  ∃ w1, Main.commitFiles (digest w) (staged w) w = Done tt w1
        ∧ Main.saveCommit username message w
          = Done true (appended logFile
                         (Main.logLine (Main.mkCommit (digest w) username message)) w1).
Proof.
  intros Hfiles Hnew Hvcs. unfold Main.saveCommit.
  destruct (commit_loop (digest w) (staged w) w Hfiles) as (w1 & Hloop & Hgrown & _).
  exists w1. split; [exact Hloop|].
  rewrite bind_run, getTrackedFiles_staged.
  rewrite bind_run, Main_computeHash_run by assumption.
  rewrite bind_run. unfold Main.hasChanges.
  rewrite bind_run. unfold StatCommit. rewrite gets_run. fold (digest w).
  rewrite bool_decide_eq_false_2 by (rewrite Hnew; intros [? ?]; discriminate).
  simpl. rewrite bind_run. unfold Main.commitFiles in Hloop |- *. rewrite Hloop.
  rewrite bind_run, Main_addLog_run by (apply Hgrown; assumption).
  reflexivity.
Qed.

(** [commit] when the store has the hash of the staged files. *)
Lemma Main_doCommit_seen (w : World) (message name : string) :
  getUsername w = Done (name, None) w →
  Forall (readable w) (staged w) →
  is_Some (snapshot (digest w) w) →
  Main.doCommit [message] w = Done tt (printed ("Nothing to commit." +:+ nl) w).
Proof.
  intros Hname Hfiles Hseen. unfold Main.doCommit.
  rewrite bind_run, Hname. simpl.
  rewrite bind_run, Main_saveCommit_seen by assumption.
  apply Println_run.
Qed.

(** [commit] when the store does not have it. *)
Lemma Main_doCommit_new (w : World) (message name : string) :
  getUsername w = Done (name, None) w →
  Forall (readable w) (staged w) →
  snapshot (digest w) w = None →
  ∃ w', Main.doCommit [message] w = Done tt w'
        ∧ stdout w' = stdout w +:+ "Changes are committed." +:+ nl
        ∧ tree (disk w') = tree (disk w)
        ∧ content configFile w' = content configFile w
        ∧ content indexFile w' = content indexFile w
        ∧ content logFile w'
          = Some (default "" (content logFile w)
                  +:+ Main.logLine (Main.mkCommit (digest w) name message))
        ∧ (∀ f, f ∈ staged w → stored (digest w) w' f)
        ∧ (staged w ≠ [] → is_Some (snapshot (digest w) w')).
Proof.
  intros Hname Hfiles Hnew.
  pose proof (identity_has_vcs w name Hname) as Hvcs.
  destruct (commit_loop (digest w) (staged w) w Hfiles)
    as (w1 & Hloop & Hgrown & _ & Hdir & _ & Hall).
  destruct (Main_saveCommit_new w name message Hfiles Hnew Hvcs) as (w1' & Hloop' & Hsave).
  unfold Main.commitFiles in Hloop'. rewrite Hloop in Hloop'. injection Hloop' as <-.
  destruct Hgrown as (Ht & Ho & Hc & Hv & Hs).
  eexists. split.
  { unfold Main.doCommit. rewrite bind_run, Hname. simpl.
    rewrite bind_run, Hsave. apply Println_run. }
  autorewrite with world.
  rewrite !appended_content_other, appended_content, !Hc by (auto || discriminate).
  repeat split; try congruence.
  - intros f Hf. apply stored_printed, appended_stored, Hall, Hf.
  - auto.
Qed.

(** *** [commit] in src/unnamed/part_000 *)

Lemma clearStage_run (w : World) : Part000.clearStage w = Done tt (cleared w).
Proof.
  unfold Part000.clearStage, cleared. rewrite bind_run. unfold Truncate.
  destruct (vcsDir (disk w)) as [v|]; [|reflexivity].
  simpl. destruct (index_txt v); reflexivity.
Qed.

Lemma cleared_tree (w : World) : tree (disk (cleared w)) = tree (disk w).
Proof.
  unfold cleared. destruct (vcsDir (disk w)) as [v|]; [|reflexivity].
  destruct (index_txt v); reflexivity.
Qed.

Lemma cleared_stdout (w : World) : stdout (cleared w) = stdout w.
Proof.
  unfold cleared. destruct (vcsDir (disk w)) as [v|]; [|reflexivity].
  destruct (index_txt v); reflexivity.
Qed.

Lemma cleared_snapshot (h : string) (w : World) : snapshot h (cleared w) = snapshot h w.
Proof.
  unfold cleared, snapshot. destruct (vcsDir (disk w)) as [v|] eqn:Hv; simpl.
  - destruct (index_txt v); simpl; rewrite ?Hv; reflexivity.
  - rewrite Hv. reflexivity.
Qed.

Lemma cleared_content_other (g : vcsFile) (w : World) :
  g ≠ indexFile → content g (cleared w) = content g w.
Proof.
  intros Hne. unfold cleared, content.
  destruct (vcsDir (disk w)) as [v|] eqn:Hv; simpl.
  - destruct (index_txt v); simpl; rewrite ?Hv; [|reflexivity].
    destruct g; try reflexivity; contradiction.
  - rewrite Hv. reflexivity.
Qed.

Lemma cleared_index (w : World) :
  content indexFile (cleared w) = (λ _, "") <$> content indexFile w.
Proof.
  unfold cleared, content.
  destruct (vcsDir (disk w)) as [v|] eqn:Hv; simpl.
  - destruct (index_txt v) eqn:Hi; simpl; rewrite ?Hv; simpl; rewrite ?Hi; reflexivity.
  - rewrite Hv. reflexivity.
Qed.

Lemma cleared_staged (w : World) : staged (cleared w) = [].
Proof.
  unfold staged. rewrite cleared_index.
  destruct (content indexFile w); reflexivity.
Qed.

#[global] Hint Rewrite cleared_tree cleared_stdout cleared_snapshot cleared_staged : world.

Lemma cleared_stored (h : string) (w : World) (filename : string) :
  stored h w filename → stored h (cleared w) filename.
Proof. unfold stored. rewrite cleared_tree, cleared_snapshot. auto. Qed.

(** [commit] of [src/unnamed/part_000] when nothing is staged. *)
Lemma Part000_doCommit_nothing_staged (w : World) (message : string) :
  staged w = [] →
  Part000.doCommit [message] w = Done tt (printed ("Nothing to commit." +:+ nl) w).
Proof.
  intros Hnone. unfold Part000.doCommit.
  rewrite bind_run, getTrackedFiles_staged, Hnone. apply Println_run.
Qed.

(** [commit] of [src/unnamed/part_000] when something is staged. *)
Lemma Part000_doCommit_run (w : World) (message name : string) :
  getUsername w = Done (name, None) w →
  staged w ≠ [] →
  Forall (readable w) (staged w) →
  ∃ w', Part000.doCommit [message] w = Done tt w'
        ∧ stdout w' = stdout w +:+ "Changes are commited." +:+ nl
        ∧ tree (disk w') = tree (disk w)
        ∧ content configFile w' = content configFile w
        ∧ content indexFile w' = Some ""
        ∧ staged w' = []
        ∧ content logFile w'
          = Some (default "" (content logFile w)
                  +:+ Part000.logLine
                        (Part000.mkCommit (digest w) (Part000.mkPerson name)
                           message (staged w)))
        ∧ (∀ f, f ∈ staged w → stored (digest w) w' f)
        ∧ is_Some (snapshot (digest w) w').
Proof.
  intros Hname Hsome Hfiles.
  pose proof (identity_has_vcs w name Hname) as Hvcs.
  destruct (commit_loop (digest w) (staged w) w Hfiles)
    as (w1 & Hloop & Hgrown & _ & Hdir & _ & Hall).
  destruct Hgrown as (Ht & Ho & Hc & Hv & Hs).
  assert (Hindex : ∃ data, content indexFile w = Some data).
  { unfold staged in Hsome. destruct (content indexFile w); [eauto|contradiction]. }
  destruct Hindex as [data Hdata].
  eexists. split.
  { unfold Part000.doCommit.
    rewrite bind_run, getTrackedFiles_staged.
    destruct (staged w) as [|file files] eqn:Hstaged; [contradiction|].
    rewrite <- Hstaged in *.
    rewrite bind_run, Hname. simpl.
    rewrite bind_run. unfold Part000.Save.
    rewrite bind_run. unfold Part000.computeHash. simpl.
    rewrite bind_run, hashed_bytes_run, sapp_nil_l by assumption. fold (digest w).
    rewrite ret_run, bind_run. unfold Part000.commitFiles. simpl. rewrite Hloop.
    rewrite bind_run, Part000_addLog_run by auto.
    rewrite bind_run, clearStage_run, ret_run.
    apply Println_run. }
  autorewrite with world.
  rewrite cleared_index, !cleared_content_other by discriminate.
  rewrite !appended_content_other, appended_content, !Hc, Hdata by (auto || discriminate).
  repeat split; try congruence.
  - apply cleared_staged.
  - intros f Hf. apply stored_printed, cleared_stored, appended_stored, Hall, Hf.
  - auto.
Qed.

(** ** C2 *)

(** C2. In [src/main.go] the claim fails: with nothing staged, [commit]
    hashes no byte, finds no directory of that hash (none is ever made,
    since no file is copied), appends an entry to the log and prints
    "Changes are committed.".  ([src/unnamed/part_000] tests the empty
    stage first: see [Part000_doCommit_nothing_staged].) *)
Theorem commit_nothing_staged_main :
  staged (fresh "alice") = []
  ∧ ∃ w', Main.doCommit ["first"] (fresh "alice") = Done tt w'
          ∧ stdout w' = "Changes are committed." +:+ nl
          ∧ content logFile (fresh "alice") = None
          ∧ content logFile w' = Some (empty_hash +:+ " alice first" +:+ nl)
          ∧ snapshot empty_hash w' = None.
Proof.
  split; [reflexivity|]. eexists. split; [vm_compute; reflexivity|].
  vm_compute. repeat split; reflexivity.
Qed.

(** ** C3 *)




(** ** C4 *)

Lemma digest_same (w w' : World) :
  tree (disk w') = tree (disk w) →
  content indexFile w' = content indexFile w →
  staged w' = staged w ∧ digest w' = digest w.
Proof. unfold digest, staged. intros -> ->. auto. Qed.

(** In [src/main.go], once a commit of a non-empty staged sequence has
    returned, the next one finds the directory of the hash: it prints
    "Nothing to commit." and changes nothing on the disk. *)
Lemma Main_commit_twice (w w1 : World) (m1 m2 name : string) :
  getUsername w = Done (name, None) w →
  staged w ≠ [] →
  Forall (readable w) (staged w) →
  Main.doCommit [m1] w = Done tt w1 →
  Main.doCommit [m2] w1 = Done tt (printed ("Nothing to commit." +:+ nl) w1).
Proof.
  intros Hname Hsome Hfiles Hfirst.
  assert (Hkept : tree (disk w1) = tree (disk w)
                  ∧ content configFile w1 = content configFile w
                  ∧ content indexFile w1 = content indexFile w
                  ∧ is_Some (snapshot (digest w) w1)).
  { destruct (snapshot (digest w) w) as [d|] eqn:Hd.
    - rewrite (Main_doCommit_seen w m1 name) in Hfirst by (rewrite ?Hd; eauto).
      injection Hfirst as <-. rewrite snapshot_printed, Hd. eauto.
    - destruct (Main_doCommit_new w m1 name Hname Hfiles Hd)
        as (w' & Hrun & _ & Ht & Hc & Hi & _ & _ & Hdir).
      rewrite Hrun in Hfirst. injection Hfirst as <-. auto. }
  destruct Hkept as (Ht & Hc & Hi & Hdir).
  destruct (digest_same w w1 Ht Hi) as [Hstaged Hdigest].
  apply (Main_doCommit_seen w1 m2 name).
  - eapply identity_same_config; eassumption.
  - rewrite Hstaged. eapply Forall_impl; [exact Hfiles|].
    intros f. apply readable_same_tree, Ht.
  - rewrite Hdigest. exact Hdir.
Qed.

(** In [src/unnamed/part_000], once a commit has returned, nothing is
    staged, and the next one prints "Nothing to commit.". *)
Lemma Part000_commit_twice (w w1 : World) (m1 m2 name : string) :
  getUsername w = Done (name, None) w →
  Forall (readable w) (staged w) →
  Part000.doCommit [m1] w = Done tt w1 →
  Part000.doCommit [m2] w1 = Done tt (printed ("Nothing to commit." +:+ nl) w1).
Proof.
  intros Hname Hfiles Hfirst.
  apply Part000_doCommit_nothing_staged.
  destruct (staged w) as [|file files] eqn:Hstaged.
  - rewrite Part000_doCommit_nothing_staged in Hfirst by assumption.
    injection Hfirst as <-. exact Hstaged.
  - destruct (Part000_doCommit_run w m1 name Hname) as (w' & Hrun & _ & _ & _ & _ & Hnone & _).
    + rewrite Hstaged. discriminate.
    + rewrite Hstaged. exact Hfiles.
    + rewrite Hrun in Hfirst. injection Hfirst as <-. exact Hnone.
Qed.

(** C4. In [src/main.go] the claim fails when nothing is staged: the
    directory of the hash of no byte is never made, so the second [commit]
    appends a second entry and prints "Changes are committed." again. *)
Theorem commit_twice_nothing_staged_main :
  ∃ w1 w2,
    Main.doCommit ["first"] (fresh "alice") = Done tt w1
    ∧ Main.doCommit ["first"] w1 = Done tt w2
    ∧ disk w2 ≠ disk w1
    ∧ content logFile w2
      = Some (empty_hash +:+ " alice first" +:+ nl
              +:+ empty_hash +:+ " alice first" +:+ nl)
    ∧ stdout w2 = "Changes are committed." +:+ nl
                  +:+ "Changes are committed." +:+ nl.
Proof.
  eexists. eexists. split; [vm_compute; reflexivity|].
  split; [vm_compute; reflexivity|].
  split; [|vm_compute; split; reflexivity].
  intros Heq. apply (f_equal vcsDir) in Heq. vm_compute in Heq. discriminate.
Qed.
(** ** C1 *)

Lemma Main_show_run (c : Main.Commit) (w : World) :
  Main.show c w = Done tt (printed (MainSpec.record_of c) w).
Proof.
  unfold Main.show. rewrite bind_run, Println_run, bind_run, Println_run, Println_run.
  rewrite !printed_printed. unfold MainSpec.record_of, record.
  rewrite !sapp_assoc. reflexivity.
Qed.

Lemma Part000_show_run (c : Main.Commit) (w : World) :
  Part000.show (MainSpec.upgrade c) w = Done tt (printed (MainSpec.record_of c) w).
Proof.
  unfold Part000.show. rewrite bind_run, Println_run, bind_run, Println_run, Println_run.
  rewrite !printed_printed. unfold MainSpec.record_of, record. simpl.
  rewrite !sapp_assoc. reflexivity.
Qed.

Lemma Main_getCommits_world (w : World) : after (Main.getCommits w) = w.
Proof.
  rewrite Main_getCommits_run.
  destruct (content logFile w) as [data|]; [|reflexivity].
  destruct (mapM _ _); reflexivity.
Qed.

(** [checkout] of [src/main.go] writes nothing on the disk, whatever its
    arguments and however it ends. *)
Lemma Main_doCheckout_disk (args : list string) (w : World) :
  disk (after (Main.doCheckout args w)) = disk w.
Proof.
  unfold Main.doCheckout.
  destruct args as [|hash [|? ?]]; try reflexivity.
  unfold Main.findCommit. rewrite !bind_run.
  pose proof (Main_getCommits_world w) as Hw.
  destruct (Main.getCommits w) as [cs w'|s w']; simpl in Hw; subst w'; [|reflexivity].
  rewrite ret_run.
  destruct (Main.find_in cs hash) as [c [|]]; cbn [fst snd].
  - unfold Main.restoreCommit. rewrite Main_show_run. reflexivity.
  - reflexivity.
Qed.

(** C1. The claim fails in [src/main.go]: [a.txt] holding "hello" is
    committed, then overwritten with "bye"; [checkout] of the hash of the
    commit finds the commit, prints its record, and [a.txt] still holds
    "bye", while the store holds "hello" for it. *)
Theorem checkout_restores_nothing :
  Main.doCommit ["first"] (staged_a "alice")
  = Done tt (printed ("Changes are committed." +:+ nl) (committed_a "alice"))
  ∧ snapshot hello_hash (committed_a "alice") = Some {[ "a.txt" := "hello" ]}
  ∧ ∃ w', Main.doCheckout [hello_hash] (edit_a "bye" (committed_a "alice")) = Done tt w'
          ∧ stdout w' = record hello_hash "alice" "first"
          ∧ tree (disk w') !! "a.txt" = Some (File "bye")
          ∧ disk w' = disk (edit_a "bye" (committed_a "alice")).
Proof.
  split; [vm_compute; reflexivity|]. split; [reflexivity|].
  eexists. split; [vm_compute; reflexivity|]. vm_compute. repeat split; reflexivity.
Qed.

(** ** C5 *)

Lemma printed_nil (w : World) : printed "" w = w.
Proof. destruct w as [d out]. unfold printed. simpl. rewrite sapp_nil_r. reflexivity. Qed.

(** The loop of [doLog] in [src/main.go], entered with [i = n]: it lists
    the commits of index [n - 1] down to [0], a blank line before each. *)
Lemma Main_doLog_loop (cs : list Main.Commit) (n : nat) (w : World) :
  n ≤ length cs →
  for_each (rev (seq 0 n))
    (λ i, Println "";; c ← at_index cs i; Main.show c) w
  = Done tt (printed (foldr (λ c acc, nl +:+ MainSpec.record_of c +:+ acc) ""
                        (rev (take n cs))) w).
Proof.
  revert w. induction n as [|n IH]; intros w Hn.
  - simpl. rewrite printed_nil. reflexivity.
  - destruct (lookup_lt_is_Some_2 cs n) as [c Hc]; [lia|].
    rewrite seq_S, rev_app_distr, (take_S_r cs n c Hc), rev_app_distr. simpl.
    rewrite bind_run, bind_run, Println_run, bind_run, at_index_run, Hc, Main_show_run.
    rewrite IH by lia. rewrite !printed_printed, !sapp_assoc. reflexivity.
Qed.

(** The loop of [doLog] in [src/unnamed/part_000], over [i = k .. k+n-1]. *)
Lemma Part000_doLog_loop (l : list Main.Commit) (k n : nat) (w : World) :
  k + n ≤ length l →
  for_each (seq k n)
    (λ i, Println "";; c ← at_index (MainSpec.upgrade <$> l) i; Part000.show c) w
  = Done tt (printed (foldr (λ c acc, nl +:+ MainSpec.record_of c +:+ acc) ""
                        (take n (drop k l))) w).
Proof.
  revert k w. induction n as [|n IH]; intros k w Hk.
  - simpl. rewrite printed_nil. reflexivity.
  - destruct (lookup_lt_is_Some_2 l k) as [c Hc]; [lia|].
    rewrite (drop_S l c k Hc). simpl.
    rewrite bind_run, bind_run, Println_run, bind_run, at_index_run.
    rewrite list_lookup_fmap, Hc. cbn [fmap option_fmap option_map].
    rewrite Part000_show_run.
    rewrite IH by lia. rewrite !printed_printed, !sapp_assoc. reflexivity.
Qed.

Lemma rev_fmap {A B} (f : A → B) (l : list A) : rev (f <$> l) = f <$> rev l.
Proof.
  induction l as [|x l IH]; [reflexivity|].
  simpl. rewrite fmap_app. simpl. f_equal. exact IH.
Qed.

(** [log] in both revisions, for a log that reads as [cs] in the order of
    the file. *)
Lemma doLog_history (w : World) (cs : list Main.Commit) :
  Main.getCommits w = Done cs w →
  length (rev cs) = length cs
  ∧ Main.doLog w = Done tt (printed (MainSpec.history (rev cs)) w)
  ∧ Part000.getCommits w = Done (MainSpec.upgrade <$> rev cs) w
  ∧ Part000.doLog w = Done tt (printed (MainSpec.history (rev cs)) w).
Proof.
  intros Hread.
  pose proof (Part000_getCommits_Main w cs Hread) as Hread'.
  rewrite rev_fmap in Hread'.
  split; [apply length_rev|]. split; [|split; [exact Hread'|]].
  - unfold Main.doLog. rewrite bind_run, Hread. clear Hread Hread'.
    destruct cs as [|c0 cs0 _] using rev_ind; [apply Println_run|].
    destruct (cs0 ++ [c0]) as [|c1 cs1] eqn:Hcs; [destruct cs0; discriminate|].
    rewrite <- Hcs. clear c1 cs1 Hcs.
    rewrite rev_app_distr. simpl rev. cbn [app].
    replace (length (cs0 ++ [c0]) - 1) with (length cs0)
      by (rewrite length_app; simpl; lia).
    cbv zeta. rewrite bind_run, at_index_run.
    rewrite lookup_app_r, Nat.sub_diag by lia. simpl.
    rewrite bind_run, Main_show_run.
    rewrite Main_doLog_loop by (rewrite length_app; lia).
    rewrite take_app_length, printed_printed. reflexivity.
  - unfold Part000.doLog. rewrite bind_run, Hread'.
    destruct (rev cs) as [|c0 shown]; [apply Println_run|].
    cbn [fmap list_fmap]. cbv zeta.
    rewrite bind_run, at_index_run. simpl lookup. cbv beta iota.
    rewrite bind_run, Part000_show_run.
    change (MainSpec.upgrade c0 :: (MainSpec.upgrade <$> shown))
      with (MainSpec.upgrade <$> (c0 :: shown)).
    rewrite length_fmap. simpl length. rewrite ?Nat.sub_0_r.
    rewrite Part000_doLog_loop by (simpl; lia).
    replace (S (length shown) - 1) with (length shown) by lia.
    simpl drop. rewrite firstn_all, printed_printed. reflexivity.
Qed.

Example log_two_commits :
  Main.doLog (after (Main.addLog (Main.mkCommit empty_hash "bob" "second  try")
                       (committed_a "alice")))
  = Done tt
      (printed
         ("commit " +:+ empty_hash +:+ nl +:+ "Author: bob" +:+ nl +:+ "second  try" +:+ nl
          +:+ nl
          +:+ "commit " +:+ hello_hash +:+ nl +:+ "Author: alice" +:+ nl +:+ "first" +:+ nl)
         (after (Main.addLog (Main.mkCommit empty_hash "bob" "second  try")
                   (committed_a "alice")))).
Proof. vm_compute. reflexivity. Qed.
(** ** C9 *)

(** *** Lines *)

Lemma has_sapp (c : ascii) (s t : string) : has c (s +:+ t) = has c s || has c t.
Proof.
  induction s as [|c' s IH]; [reflexivity|].
  rewrite sapp_cons. simpl. destruct (decide (c' = c)); [reflexivity|exact IH].
Qed.

Lemma nl_sapp (s : string) : nl +:+ s = String "010"%char s.
Proof. reflexivity. Qed.

Lemma cut_lines_line (raw rest : string) :
  has newline raw = false →
  Bufio.cut_lines (raw +:+ nl +:+ rest)
  = (raw :: (Bufio.cut_lines rest).1, (Bufio.cut_lines rest).2).
Proof.
  induction raw as [|c raw IH]; intros Hraw.
  - rewrite sapp_nil_l, nl_sapp. simpl. destruct (Bufio.cut_lines rest). reflexivity.
  - simpl in Hraw. unfold newline in Hraw.
    destruct (decide (c = "010"%char)) as [|Hc]; [discriminate|].
    rewrite sapp_cons. simpl. rewrite (IH Hraw).
    destruct (decide (c = "010"%char)); [contradiction|]. reflexivity.
Qed.

Lemma cut_lines_terminated (old more : string) :
  (Bufio.cut_lines old).2 = "" →
  Bufio.cut_lines (old +:+ more)
  = ((Bufio.cut_lines old).1 ++ (Bufio.cut_lines more).1, (Bufio.cut_lines more).2).
Proof.
  induction old as [|c old IH]; intros Hend.
  - rewrite sapp_nil_l. simpl. destruct (Bufio.cut_lines more). reflexivity.
  - rewrite sapp_cons. simpl in *.
    destruct (Bufio.cut_lines old) as [ls r].
    destruct (decide (c = "010"%char)).
    + simpl in *. rewrite (IH Hend). reflexivity.
    + destruct ls as [|l ls]; simpl in *; [discriminate|].
      rewrite (IH Hend). reflexivity.
Qed.

Lemma raw_lines_append (old raw : string) :
  (Bufio.cut_lines old).2 = "" →
  has newline raw = false →
  Bufio.raw_lines (old +:+ raw +:+ nl) = Bufio.raw_lines old ++ [raw]
  ∧ (Bufio.cut_lines (old +:+ raw +:+ nl)).2 = "".
Proof.
  intros Hend Hraw. unfold Bufio.raw_lines.
  rewrite (cut_lines_terminated old _ Hend).
  replace (raw +:+ nl) with (raw +:+ nl +:+ "") by (rewrite sapp_nil_r; reflexivity).
  rewrite (cut_lines_line raw "" Hraw).
  destruct (Bufio.cut_lines old) as [ls r]. simpl in *. subst r.
  rewrite !app_nil_r. auto.
Qed.

Lemma scan_tokens_append (ls ts : list string) (raw : string) :
  Bufio.scan_tokens ls = (ts, None) →
  Bufio.fits raw = true →
  Bufio.scan_tokens (ls ++ [raw]) = (ts ++ [Bufio.dropCR raw], None).
Proof.
  intros Hls Hfits. revert ts Hls.
  induction ls as [|l ls IH]; intros ts Hls.
  - injection Hls as <-. simpl. rewrite Hfits. reflexivity.
  - simpl in *. destruct (Bufio.fits l); [|discriminate].
    destruct (Bufio.scan_tokens ls) as [ts' e].
    injection Hls as <- ->. rewrite (IH ts' eq_refl). reflexivity.
Qed.

Lemma dropCR_id (s : string) : ends_with_cr s = false → Bufio.dropCR s = s.
Proof.
  induction s as [|c s IH]; [reflexivity|].
  simpl. destruct s as [|c' s'].
  - intros Hc. apply bool_decide_eq_false in Hc.
    destruct (decide (c = "013"%char)); [contradiction|reflexivity].
  - intros Hs. rewrite (IH Hs). reflexivity.
Qed.

Lemma ends_with_cr_sapp (s : string) (c : ascii) (t : string) :
  ends_with_cr (s +:+ String c t) = ends_with_cr (String c t).
Proof.
  induction s as [|c' s IH]; [reflexivity|].
  rewrite sapp_cons.
  change (ends_with_cr (String c' (s +:+ String c t)))
    with (match s +:+ String c t with
          | EmptyString => bool_decide (c' = "013"%char)
          | _ => ends_with_cr (s +:+ String c t)
          end).
  destruct s; exact IH.
Qed.

(** *** Fields *)

Lemma Cut_first (before after : string) (sep : ascii) :
  has sep before = false →
  Strings.Cut (before +:+ String sep after) sep = Some (before, after).
Proof.
  induction before as [|c before IH]; intros Hnone.
  - simpl. destruct (decide (sep = sep)); [reflexivity|contradiction].
  - simpl in Hnone. destruct (decide (c = sep)) as [|Hc]; [discriminate|].
    rewrite sapp_cons. simpl. destruct (decide (c = sep)); [contradiction|].
    rewrite (IH Hnone). reflexivity.
Qed.

Lemma fields_of_line (h a m : string) :
  has space h = false → has space a = false →
  fields (h +:+ " " +:+ a +:+ " " +:+ m) = Some (h, a, m).
Proof.
  intros Hh Ha. unfold fields. simpl Strings.SplitN.
  change (h +:+ " " +:+ a +:+ " " +:+ m) with (h +:+ String space (a +:+ String space m)).
  rewrite (Cut_first h _ space Hh), (Cut_first a _ space Ha). reflexivity.
Qed.

Lemma logLine_raw (c : Main.Commit) : Main.logLine c = MainSpec.raw_line c +:+ nl.
Proof. unfold Main.logLine, MainSpec.raw_line. rewrite !sapp_assoc. reflexivity. Qed.

Lemma storable_line (c : Main.Commit) :
  MainSpec.storable c = true →
  has newline (MainSpec.raw_line c) = false
  ∧ Bufio.fits (MainSpec.raw_line c) = true
  ∧ Bufio.dropCR (MainSpec.raw_line c) = MainSpec.raw_line c
  ∧ MainSpec.parse (MainSpec.raw_line c) = Some c.
Proof.
  unfold MainSpec.storable. destruct c as [h a m]. simpl.
  rewrite !andb_true_iff, !negb_true_iff.
  intros ((((((Hh & Hh') & Ha) & Ha') & Hm) & Hcr) & Hfits).
  unfold MainSpec.raw_line in *. simpl in *.
  split; [|split; [exact Hfits|split]].
  - rewrite !has_sapp, Hh', Ha', Hm. reflexivity.
  - apply dropCR_id.
    rewrite <- (sapp_assoc h " " (a +:+ " " +:+ m)), <- (sapp_assoc (h +:+ " ") a).
    change (" " +:+ m) with (String space m).
    rewrite ends_with_cr_sapp. destruct m; [reflexivity|exact Hcr].
  - unfold MainSpec.parse. rewrite (fields_of_line h a m Hh Ha). reflexivity.
Qed.

Lemma mapM_snoc {A B} (g : A → option B) (xs : list A) (ys : list B) (x : A) (y : B) :
  mapM g xs = Some ys → g x = Some y → mapM g (xs ++ [x]) = Some (ys ++ [y]).
Proof.
  rewrite !mapM_Some. intros Hxs Hx.
  apply Forall2_app; [exact Hxs|]. repeat constructor. exact Hx.
Qed.

(** What the log holds, in the terms of the scanner: no line when the file
    is absent. *)
Lemma log_intact_data (w : World) (cs : list Main.Commit) :
  MainSpec.log_intact w →
  Main.getCommits w = Done cs w →
  let old := default "" (content logFile w) in
  (Bufio.cut_lines old).2 = ""
  ∧ Bufio.scan_tokens (Bufio.raw_lines old) = ((Bufio.scan old).1, None)
  ∧ mapM MainSpec.parse (Bufio.scan old).1 = Some cs.
Proof.
  unfold MainSpec.log_intact. rewrite Main_getCommits_run.
  destruct (content logFile w) as [data|]; simpl.
  - intros [Hend Hscan] Hread. split; [exact Hend|]. split.
    + unfold Bufio.scan in *. destruct (Bufio.scan_tokens _) as [ts e].
      simpl in *. subst e. reflexivity.
    + destruct (mapM _ _); congruence.
  - intros _ [= <-]. auto.
Qed.

(** C9 (as the code has it). For a commit whose hash and author hold no
    space and no newline, whose message holds no newline and does not end in
    a carriage return, and whose line is shorter than the buffer of the
    scanner (64 KiB), [addLog] appends the line of the commit at the end of
    the log, the rest of the file being as it was, and [getCommits] then
    reads the commits it read before, in the same order, followed by this
    commit with its hash, author and message unchanged. *)
Theorem addLog_then_getCommits (w : World) (cs : list Main.Commit) (c : Main.Commit) :
  is_Some (vcsDir (disk w)) →
  MainSpec.log_intact w →
  Main.getCommits w = Done cs w →
  MainSpec.storable c = true →
  ∃ w', Main.addLog c w = Done tt w'
        ∧ content logFile w'
          = Some (default "" (content logFile w)
                  +:+ Main.Hash c +:+ " " +:+ Main.Username c +:+ " "
                  +:+ Main.Message c +:+ nl)
        ∧ MainSpec.log_intact w'
        ∧ Main.getCommits w' = Done (cs ++ [c]) w'.
Proof.
  intros Hvcs Hintact Hread Hc.
  destruct (log_intact_data w cs Hintact Hread) as (Hend & Hscan & Hparse).
  destruct (storable_line c Hc) as (Hnl & Hfits & Hcr & Hline).
  destruct (raw_lines_append _ (MainSpec.raw_line c) Hend Hnl) as [Hraw Hend'].
  exists (appended logFile (Main.logLine c) w).
  assert (Hlog : content logFile (appended logFile (Main.logLine c) w)
                 = Some (default "" (content logFile w) +:+ MainSpec.raw_line c +:+ nl)).
  { rewrite appended_content, logLine_raw by assumption. reflexivity. }
  assert (Hscan' : Bufio.scan (default "" (content logFile w) +:+ MainSpec.raw_line c +:+ nl)
                   = ((Bufio.scan (default "" (content logFile w))).1
                      ++ [MainSpec.raw_line c], None)).
  { unfold Bufio.scan at 1. rewrite Hraw.
    rewrite (scan_tokens_append _ _ _ Hscan Hfits), Hcr. reflexivity. }
  split; [apply Main_addLog_run, Hvcs|].
  split; [rewrite Hlog, <- logLine_raw; reflexivity|].
  split.
  - unfold MainSpec.log_intact. rewrite Hlog, Hscan'. auto.
  - rewrite Main_getCommits_run, Hlog, Hscan'. simpl.
    rewrite (mapM_snoc _ _ cs _ c Hparse Hline). reflexivity.
Qed.

Lemma addLog_then_getCommits_witness :
  ∃ w', Main.addLog (Main.mkCommit empty_hash "bob" "second  try")
          (committed_a "alice") = Done tt w'
        ∧ content logFile w'
          = Some (default "" (content logFile (committed_a "alice"))
                  +:+ Main.Hash (Main.mkCommit empty_hash "bob" "second  try")
                  +:+ " " +:+ Main.Username (Main.mkCommit empty_hash "bob" "second  try")
                  +:+ " " +:+ Main.Message (Main.mkCommit empty_hash "bob" "second  try")
                  +:+ nl)
        ∧ MainSpec.log_intact w'
        ∧ Main.getCommits w'
          = Done ([Main.mkCommit hello_hash "alice" "first"]
                  ++ [Main.mkCommit empty_hash "bob" "second  try"]) w'.
Proof.
  apply addLog_then_getCommits.
  - eexists. reflexivity.
  - vm_compute. split; reflexivity.
  - vm_compute. reflexivity.
  - vm_compute. reflexivity.
Defined.

(** C9 fails as stated: a message that ends in a carriage return holds no
    newline, and the scanner drops the carriage return from the line. *)
Lemma log_drops_final_cr :
  let c := Main.mkCommit hello_hash "alice" ("fix" +:+ String "013"%char "") in
  has space (Main.Hash c) = false ∧ has newline (Main.Hash c) = false
  ∧ has space (Main.Username c) = false ∧ has newline (Main.Username c) = false
  ∧ has newline (Main.Message c) = false
  ∧ ∃ w', Main.addLog c (fresh "alice") = Done tt w'
          ∧ Main.getCommits w' = Done [Main.mkCommit hello_hash "alice" "fix"] w'
          ∧ Main.mkCommit hello_hash "alice" "fix" ≠ c.
Proof.
  repeat (split; [vm_compute; reflexivity|]).
  eexists. split; [vm_compute; reflexivity|].
  split; [vm_compute; reflexivity|]. discriminate.
Qed.

(** And so does a line of 64 KiB or more: the scanner stops with
    [ErrTooLong], which [getCommits] does not look at, and the entry is not
    read. *)
Lemma log_drops_long_line :
  let c := Main.mkCommit hello_hash "alice" long_message in
  has newline (Main.Message c) = false
  ∧ ∃ w', Main.addLog c (fresh "alice") = Done tt w'
          ∧ Main.getCommits w' = Done [] w'.
Proof.
  split; [vm_compute; reflexivity|].
  eexists. split; [reflexivity|]. 
  rewrite Main_getCommits_run.
  set (data := content logFile _).
  assert (Hdata : data = Some (Main.logLine (Main.mkCommit hello_hash "alice" long_message)))
    by reflexivity.
  rewrite Hdata.
  assert (Hscan : Bufio.scan (Main.logLine (Main.mkCommit hello_hash "alice" long_message))
                  = ([], Some Bufio.ErrTooLong)) by (vm_compute; reflexivity).
  rewrite Hscan. reflexivity.
Qed.

(** * Further properties of the code *)

(** ** One line through the scanner *)

Lemma cut_lines_no_newline (s : string) :
  has newline s = false → Bufio.cut_lines s = ([], s).
Proof.
  induction s as [|c s IH]; [reflexivity|].
  simpl. unfold newline. destruct (decide (c = "010"%char)); [discriminate|].
  intros Hs. rewrite (IH Hs). reflexivity.
Qed.

Lemma scan_one_line (s : string) :
  has newline s = false → ends_with_cr s = false → Bufio.fits s = true →
  Bufio.scan s = (match s with EmptyString => [] | _ => [s] end, None).
Proof.
  intros Hnl Hcr Hfits. unfold Bufio.scan, Bufio.raw_lines.
  rewrite (cut_lines_no_newline s Hnl). destruct s as [|c s]; [reflexivity|].
  pose proof (scan_tokens_append [] [] _ eq_refl Hfits) as Hone.
  rewrite (dropCR_id _ Hcr) in Hone. exact Hone.
Qed.

Lemma MkdirAll_vcsDir_run (w : World) :
  ∃ w1, MkdirAll_vcsDir w = Done tt w1
        ∧ is_Some (vcsDir (disk w1))
        ∧ tree (disk w1) = tree (disk w)
        ∧ stdout w1 = stdout w
        ∧ (∀ f, content f w1 = content f w)
        ∧ (∀ h, snapshot h w1 = snapshot h w).
Proof.
  unfold MkdirAll_vcsDir, modify.
  destruct (vcsDir (disk w)) as [v|] eqn:Hv.
  - exists w. rewrite Hv. repeat split; eauto.
  - eexists. split; [reflexivity|]. unfold content, snapshot. rewrite Hv. simpl.
    repeat split; eauto.
    intros f. destruct f; reflexivity.
Qed.

(** ** [config] *)

Lemma Stat_found (filename : string) (w : World) :
  is_Some (vcsDir (disk w)) →
  Stat filename w
  = Done (bool_decide (filename = "vcs" ∨ is_Some (tree (disk w) !! filename))) w.
Proof.
  intros Hvcs. unfold Stat. rewrite gets_run. f_equal.
  destruct (decide (filename = "vcs")) as [Heq|Hne].
  - rewrite !bool_decide_eq_true_2; auto.
  - apply bool_decide_ext. tauto.
Qed.

Lemma setUsername_run (name : string) (w : World) :
  ∃ w', setUsername name w = Done tt w'
        ∧ content configFile w' = Some name
        ∧ content indexFile w' = content indexFile w
        ∧ content logFile w' = content logFile w
        ∧ tree (disk w') = tree (disk w)
        ∧ stdout w' = stdout w
        ∧ (∀ h, snapshot h w' = snapshot h w).
Proof.
  unfold setUsername.
  destruct (MkdirAll_vcsDir_run w) as (w1 & Hrun & [v Hv] & Ht & Ho & Hc & Hs).
  rewrite bind_run, Hrun, bind_run. unfold Create. rewrite Hv.
  unfold WriteString, modify. simpl.
  eexists. split; [reflexivity|].
  unfold content, snapshot in *. simpl.
  specialize (Hc indexFile) as Hi. specialize (Hc logFile) as Hl.
  rewrite Hv in Hi, Hl, Hs. simpl in Hi, Hl, Hs.
  repeat split; auto.
Qed.



(** ** [add] *)

Lemma scan_append_line (old raw : string) :
  (Bufio.cut_lines old).2 = "" →
  (Bufio.scan old).2 = None →
  has newline raw = false → ends_with_cr raw = false → Bufio.fits raw = true →
  Bufio.scan (old +:+ raw +:+ nl) = ((Bufio.scan old).1 ++ [raw], None)
  ∧ (Bufio.cut_lines (old +:+ raw +:+ nl)).2 = "".
Proof.
  intros Hend Hscan Hnl Hcr Hfits.
  destruct (raw_lines_append old raw Hend Hnl) as [Hraw Hend'].
  split; [|exact Hend'].
  unfold Bufio.scan in *. rewrite Hraw.
  destruct (Bufio.scan_tokens (Bufio.raw_lines old)) as [ts e] eqn:Hts.
  simpl in Hscan. subst e.
  rewrite (scan_tokens_append _ _ _ Hts Hfits), (dropCR_id _ Hcr). reflexivity.
Qed.

Lemma intact_data (f : vcsFile) (w : World) :
  intact f w →
  (Bufio.cut_lines (default "" (content f w))).2 = ""
  ∧ (Bufio.scan (default "" (content f w))).2 = None.
Proof.
  unfold intact. destruct (content f w); simpl; auto.
Qed.

Lemma staged_default (w : World) :
  staged w = (Bufio.scan (default "" (content indexFile w))).1.
Proof. unfold staged. destruct (content indexFile w); reflexivity. Qed.

Lemma append_then {A} (f : vcsFile) (s : string) (k : Cmd A) (w : World) :
  is_Some (vcsDir (disk w)) →
  (ok ← OpenFile_append f;
   if ok : bool then WriteString f s;; k else log_Fatal) w
  = k (appended f s w).
Proof.
  intros [v Hv]. rewrite bind_run. unfold OpenFile_append, appended.
  rewrite Hv. destruct (vget f v) as [data|] eqn:Hdata.
  - rewrite bind_run. unfold WriteString, modify. rewrite Hv, Hdata. reflexivity.
  - rewrite bind_run. unfold WriteString, modify. simpl.
    destruct w as [[t v'] out]. simpl in *. destruct f, v; simpl in *; subst; reflexivity.
Qed.



Lemma for_each_Println (lines : list string) (w : World) :
  for_each lines Println w
  = Done tt (printed (foldr (λ line acc, line +:+ nl +:+ acc) "" lines) w).
Proof.
  revert w. induction lines as [|line lines IH]; intros w.
  - simpl. rewrite printed_nil. reflexivity.
  - simpl. rewrite bind_run, Println_run, IH, printed_printed, sapp_assoc.
    reflexivity.
Qed.

Lemma showTrackedFiles_run (w : World) :
  showTrackedFiles w
  = Done tt (printed (match staged w with
                      | [] => "Add a file to the index." +:+ nl
                      | files => "Tracked files:" +:+ nl
                                 +:+ foldr (λ line acc, line +:+ nl +:+ acc) "" files
                      end) w).
Proof.
  unfold showTrackedFiles. rewrite bind_run, getTrackedFiles_staged.
  destruct (staged w) as [|file files]; [apply Println_run|].
  rewrite bind_run, Println_run, for_each_Println, printed_printed. reflexivity.
Qed.

(** X3. [add] with no argument, or with more than one, stages nothing: it
    prints "Add a file to the index." when nothing is staged, and otherwise
    "Tracked files:" followed by the staged paths, one per line, in the
    order of the index, duplicates included; the disk is as it was. *)
Theorem add_without_a_path_lists (w : World) (args : list string) :
  length args ≠ 1 →
  Main.doAdd args w
  = Done tt (printed (match staged w with
                      | [] => "Add a file to the index." +:+ nl
                      | files => "Tracked files:" +:+ nl
                                 +:+ foldr (λ line acc, line +:+ nl +:+ acc) "" files
                      end) w).
Proof.
  intros Hargs. unfold Main.doAdd.
  destruct args as [|a [|b args]]; try apply showTrackedFiles_run.
  contradiction Hargs. reflexivity.
Qed.

Lemma add_without_a_path_lists_witness :
  Main.doAdd [] (committed_a "alice")
  = Done tt (printed (match staged (committed_a "alice") with
                      | [] => "Add a file to the index." +:+ nl
                      | files => "Tracked files:" +:+ nl
                                 +:+ foldr (λ line acc, line +:+ nl +:+ acc) "" files
                      end) (committed_a "alice")).
Proof. apply add_without_a_path_lists. simpl. discriminate. Defined.

(** ** [commit] on a staged path that cannot be read *)

Lemma hashed_bytes_fatal (files : list string) (written : string) (w : World) :
  Exists (λ f, ¬ readable w f) files →
  hashed_bytes files written w = Stopped Fatal w.
Proof.
  revert written. induction files as [|filename files IH]; intros written Hbad.
  - inversion Hbad.
  - simpl. rewrite bind_run. unfold Open. rewrite gets_run.
    destruct (tree (disk w) !! filename) as [[bytes|]|] eqn:Hfile; try reflexivity.
    simpl. apply IH. apply Exists_cons in Hbad as [Hbad|Hbad]; [|exact Hbad].
    contradiction Hbad. exists bytes. exact Hfile.
Qed.

Lemma commit_unreadable_is_fatal_main (w : World) (message name : string) :
  getUsername w = Done (name, None) w →
  Exists (λ f, ¬ readable w f) (staged w) →
  Main.doCommit [message] w = Stopped Fatal w.
Proof.
  intros Hname Hbad.
  unfold Main.doCommit. rewrite bind_run, Hname. simpl.
  rewrite bind_run. unfold Main.saveCommit.
  rewrite bind_run, getTrackedFiles_staged, bind_run.
  unfold Main.computeHash. rewrite bind_run, hashed_bytes_fatal by assumption.
  reflexivity.
Qed.



Example add_accepts_a_directory :
  Main.doAdd ["docs"]
    (mkWorld (mkDisk {[ "docs" := Dir ]} (Some (mkVcs (Some "alice") None None ∅))) "")
  = Done tt (printed ("The file 'docs' is tracked." +:+ nl) staged_dir).
Proof. vm_compute. reflexivity. Qed.

(** ** [checkout] of a hash of the log *)

Lemma find_in_first (pre post : list Main.Commit) (c : Main.Commit) :
  Forall (λ c', Main.Hash c' ≠ Main.Hash c) pre →
  Main.find_in (pre ++ c :: post) (Main.Hash c) = (c, true).
Proof.
  induction 1 as [|c' pre Hc' _ IH]; simpl.
  - destruct (decide (Main.Hash c = Main.Hash c)); [reflexivity|contradiction].
  - destruct (decide (Main.Hash c' = Main.Hash c)); [contradiction|exact IH].
Qed.

(** X5. [checkout hash] when the log holds commits of that hash: the
    command prints the record (hash, author, message) of the first of them
    in the order of the file, the oldest, and returns; the disk is as it
    was. *)
Theorem checkout_shows_the_first_match (w : World) (pre post : list Main.Commit)
    (c : Main.Commit) :
  Main.getCommits w = Done (pre ++ c :: post) w →
  Forall (λ c', Main.Hash c' ≠ Main.Hash c) pre →
  Main.doCheckout [Main.Hash c] w
  = Done tt (printed (record (Main.Hash c) (Main.Username c) (Main.Message c)) w).
Proof.
  intros Hread Hpre. unfold Main.doCheckout, Main.findCommit.
  rewrite bind_run, bind_run, Hread, ret_run, (find_in_first pre post c Hpre).
  cbn [fst snd]. unfold Main.restoreCommit. apply Main_show_run.
Qed.

Lemma checkout_shows_the_first_match_witness :
  Main.doCheckout [Main.Hash (Main.mkCommit empty_hash "alice" "first")]
    (after (Main.doCommit ["second"] (after (Main.doCommit ["first"] (fresh "alice")))))
  = Done tt
      (printed (record (Main.Hash (Main.mkCommit empty_hash "alice" "first"))
                       (Main.Username (Main.mkCommit empty_hash "alice" "first"))
                       (Main.Message (Main.mkCommit empty_hash "alice" "first")))
         (after (Main.doCommit ["second"] (after (Main.doCommit ["first"] (fresh "alice")))))).
Proof.
  apply (checkout_shows_the_first_match _ []
           [Main.mkCommit empty_hash "alice" "second"]
           (Main.mkCommit empty_hash "alice" "first")).
  - vm_compute. reflexivity.
  - constructor.
Defined.

(** ** What no command undoes *)

Lemma kept_same_disk (w w' : World) : disk w' = disk w → kept w w'.
Proof.
  intros Hdisk. unfold kept, snapshot, content. rewrite Hdisk.
  repeat split; auto; intros data Hdata; exists ""; rewrite sapp_nil_r; exact Hdata.
Qed.

Lemma for_each_Printf {A} (xs : list A) (line : A → string) (w : World) :
  for_each xs (λ x, Printf (line x)) w
  = Done tt (printed (foldr (λ x acc, line x +:+ acc) "" xs) w).
Proof.
  revert w. induction xs as [|x xs IH]; intros w.
  - simpl. rewrite printed_nil. reflexivity.
  - simpl. rewrite bind_run, Printf_run, IH, printed_printed. reflexivity.
Qed.

Lemma displayHelp_disk (w : World) : disk (after (Main.displayHelp w)) = disk w.
Proof.
  unfold Main.displayHelp. rewrite bind_run, Println_run, for_each_Printf. reflexivity.
Qed.

Lemma doConfig_run (args : list string) (w : World) :
  ∃ w', doConfig args w = Done tt w'
        ∧ tree (disk w') = tree (disk w)
        ∧ content indexFile w' = content indexFile w
        ∧ content logFile w' = content logFile w
        ∧ (∀ h, snapshot h w' = snapshot h w)
        ∧ (length args ≠ 1 → content configFile w' = content configFile w).
Proof.
  assert (Hread : ∀ w1, ∃ s, (r ← getUsername;
                             match r.2 with
                             | None => Printf ("The username is " +:+ r.1 +:+ "." +:+ nl)
                             | Some _ => Println "Please, tell me who you are."
                             end) w1 = Done tt (printed s w1)).
  { intros w1. rewrite bind_run, getUsername_run.
    destruct (content configFile w1) as [data|]; cbn [fst snd].
    - destruct (ErrScan <$> (Bufio.scan_once data).2); eexists; reflexivity.
    - eexists. reflexivity. }
  unfold doConfig. rewrite bind_run.
  destruct args as [|name [|? ?]].
  - rewrite ret_run. destruct (Hread w) as [out ->]. eexists. split; [reflexivity|].
    repeat split; auto.
  - destruct (setUsername_run name w) as (w1 & Hrun & Hc & Hi & Hl & Ht & Ho & Hs).
    rewrite Hrun. destruct (Hread w1) as [out ->]. eexists. split; [reflexivity|].
    rewrite !content_printed, tree_printed. repeat split; auto.
    intros Hne. contradiction Hne. reflexivity.
  - rewrite ret_run. destruct (Hread w) as [out ->]. eexists. split; [reflexivity|].
    repeat split; auto.
Qed.

Lemma doAdd_run (args : list string) (w : World) :
  ∃ w', Main.doAdd args w = Done tt w'
        ∧ tree (disk w') = tree (disk w)
        ∧ content configFile w' = content configFile w
        ∧ content logFile w' = content logFile w
        ∧ (∀ h, snapshot h w' = snapshot h w)
        ∧ ∃ more, content indexFile w'
                  = match content indexFile w with
                    | Some data => Some (data +:+ more)
                    | None => if decide (more = "") then None else Some more
                    end.
Proof.
  destruct (decide (length args = 1)) as [Hone|Hne].
  - destruct args as [|filename [|? ?]]; try discriminate.
    unfold Main.doAdd.
    destruct (MkdirAll_vcsDir_run w) as (w1 & Hrun & Hvcs & Ht & Ho & Hc & Hs).
    rewrite bind_run, Hrun, bind_run, (Stat_found _ _ Hvcs).
    destruct (bool_decide _).
    + rewrite (append_then indexFile (filename +:+ nl) _ w1 Hvcs), Printf_run.
      eexists. split; [reflexivity|].
      rewrite !content_printed, tree_printed, appended_tree.
      rewrite !appended_content_other, appended_content by (auto || discriminate).
      rewrite !Hc. repeat split; auto.
      * intros h. rewrite snapshot_printed, appended_snapshot. apply Hs.
      * exists (filename +:+ nl). destruct (content indexFile w); [reflexivity|].
        rewrite sapp_nil_l. destruct (decide (filename +:+ nl = "")) as [Hnil|]; [|reflexivity].
        destruct filename; discriminate.
    + rewrite Printf_run. eexists. split; [reflexivity|].
      rewrite !content_printed, tree_printed, !Hc. repeat split; auto.
      exists "". destruct (content indexFile w); [rewrite sapp_nil_r|]; reflexivity.
  - assert (Hlist : Main.doAdd args w = showTrackedFiles w).
    { unfold Main.doAdd. destruct args as [|a [|b args]]; try reflexivity.
      contradiction Hne. reflexivity. }
    rewrite Hlist, showTrackedFiles_run.
    eexists. split; [reflexivity|]. rewrite !content_printed, tree_printed.
    repeat split; auto.
    exists "". destruct (content indexFile w); [rewrite sapp_nil_r|]; reflexivity.
Qed.

Lemma doLog_disk (w : World) : disk (after (Main.doLog w)) = disk w.
Proof.
  destruct (Main.getCommits w) as [cs w'|s w'] eqn:Hread.
  - pose proof (Main_getCommits_pure w w' cs Hread) as ->.
    destruct (doLog_history w cs Hread) as (_ & Hmain & _). rewrite Hmain. reflexivity.
  - pose proof (Main_getCommits_world w) as Hw. rewrite Hread in Hw. simpl in Hw. subst w'.
    unfold Main.doLog. rewrite bind_run, Hread. reflexivity.
Qed.

Lemma readable_or_not (w : World) (files : list string) :
  Forall (readable w) files ∨ Exists (λ f, ¬ readable w f) files.
Proof.
  induction files as [|filename files [IH|IH]].
  - left. constructor.
  - destruct (tree (disk w) !! filename) as [[bytes|]|] eqn:Hfile.
    + left. constructor; [exists bytes; exact Hfile|exact IH].
    + right. apply Exists_cons_hd. intros [bytes Hb]. congruence.
    + right. apply Exists_cons_hd. intros [bytes Hb]. congruence.
  - right. apply Exists_cons_tl. exact IH.
Qed.

Lemma doCommit_kept (args : list string) (w : World) :
  kept w (after (Main.doCommit args w))
  ∧ content configFile (after (Main.doCommit args w)) = content configFile w.
Proof.
  assert (Hsame : ∀ s, kept w (printed s w)
                       ∧ content configFile (printed s w) = content configFile w).
  { intros s. split; [apply kept_same_disk|]; reflexivity. }
  destruct (decide (length args = 1)) as [Hone|Hne].
  2: { unfold Main.doCommit. destruct args as [|m [|? ?]]; try apply Hsame.
       contradiction Hne. reflexivity. }
  destruct args as [|message [|? ?]]; try discriminate.
  pose proof (getUsername_run w) as Hname.
  match type of Hname with _ = Done ?r _ => destruct r as [name [e|]] end.
  { unfold Main.doCommit. rewrite bind_run, Hname. apply Hsame. }
  destruct (readable_or_not w (staged w)) as [Hfiles|Hbad].
  2: { rewrite (commit_unreadable_is_fatal_main w message _ Hname Hbad).
       split; [apply kept_same_disk|]; reflexivity. }
  destruct (snapshot (digest w) w) as [d|] eqn:Hd.
  { rewrite (Main_doCommit_seen w message _ Hname Hfiles) by (rewrite Hd; eauto).
    apply Hsame. }
  pose proof (identity_has_vcs w _ Hname) as Hvcs.
  destruct (commit_loop (digest w) (staged w) w Hfiles)
    as (w1 & Hloop & Hgrown & Hother & _).
  destruct (Main_saveCommit_new w name message Hfiles Hd Hvcs)
    as (w1' & Hloop' & Hsave).
  unfold Main.commitFiles in Hloop'. rewrite Hloop in Hloop'. injection Hloop' as <-.
  destruct Hgrown as (Ht & Ho & Hc & Hv & Hs).
  assert (Hrun : Main.doCommit [message] w
                 = Done tt (printed ("Changes are committed." +:+ nl)
                              (appended logFile
                                 (Main.logLine (Main.mkCommit (digest w) name message))
                                 w1))).
  { unfold Main.doCommit. rewrite bind_run, Hname. cbn [fst snd].
    rewrite bind_run, Hsave. apply Println_run. }
  rewrite Hrun. cbn [after]. unfold kept.
  rewrite !content_printed, tree_printed, appended_tree.
  rewrite (appended_content_other logFile indexFile) by discriminate.
  rewrite (appended_content_other logFile configFile) by discriminate.
  rewrite appended_content, !Hc by auto.
  repeat split; auto.
  - intros h d Hh. rewrite snapshot_printed, appended_snapshot, Hother; [exact Hh|].
    intros ->. congruence.
  - intros data' ->. eexists. reflexivity.
  - intros data' ->. exists "". rewrite sapp_nil_r. reflexivity.
Qed.

Lemma main_kept (Args : list string) (w : World) :
  kept w (after (Main.main Args w)).
Proof.
  unfold Main.main.
  destruct Args as [|prog [|cmd args]]; try (apply kept_same_disk, displayHelp_disk).
  repeat case_decide.
  - apply kept_same_disk, displayHelp_disk.
  - destruct (doConfig_run args w) as (w' & -> & Ht & Hi & Hl & Hs & _).
    unfold kept. cbn [after]. rewrite Ht, Hi, Hl.
    repeat split; [intros h d; rewrite Hs; auto|..];
      intros data ->; exists ""; rewrite sapp_nil_r; reflexivity.
  - destruct (doAdd_run args w) as (w' & -> & Ht & Hc & Hl & Hs & more & Hi).
    unfold kept. cbn [after]. rewrite Ht, Hl, Hi.
    repeat split; [intros h d; rewrite Hs; auto|..].
    + intros data ->. exists "". rewrite sapp_nil_r. reflexivity.
    + intros data ->. exists more. reflexivity.
  - apply kept_same_disk, doLog_disk.
  - apply doCommit_kept.
  - apply kept_same_disk, Main_doCheckout_disk.
  - apply kept_same_disk. reflexivity.
Qed.

(** X6. When the staged names are plain, so that [commit] copies each file
    into the directory of the hash, no command of [src/main.go] writes in
    the working tree: whatever the arguments of the program and however the
    run ends (it returns, it stops with [log.Fatal], it panics), every
    entry of the tree holds what it held. *)
Theorem main_never_writes_the_tree (Args : list string) (w : World) :
  plain_staged w →
  tree (disk (after (Main.main Args w))) = tree (disk w).
Proof. intros _. apply main_kept. Qed.

Lemma main_never_writes_the_tree_witness :
  tree (disk (after (Main.main ["svcs"; "commit"; "first"] (staged_a "alice"))))
  = tree (disk (staged_a "alice")).
Proof.
  apply (main_never_writes_the_tree ["svcs"; "commit"; "first"] (staged_a "alice")).
  unfold plain_staged. vm_compute. repeat constructor.
Defined.

(** X7. When the staged names are plain, the log is only ever appended to:
    after any run of [src/main.go] on a disk that has a log file, the file
    holds the bytes it held, followed by what the run appended (nothing, or
    the line of one commit). *)
Theorem main_appends_to_the_log (Args : list string) (w : World) (data : string) :
  plain_staged w →
  content logFile w = Some data →
  ∃ more, content logFile (after (Main.main Args w)) = Some (data +:+ more).
Proof. intros _. apply main_kept. Qed.

Lemma main_appends_to_the_log_witness :
  ∃ more, content logFile
            (after (Main.main ["svcs"; "commit"; "second"] (edit_a "bye" (committed_a "alice"))))
          = Some ((hello_hash +:+ " " +:+ "alice" +:+ " first" +:+ nl) +:+ more).
Proof.
  apply (main_appends_to_the_log ["svcs"; "commit"; "second"]
           (edit_a "bye" (committed_a "alice"))).
  - unfold plain_staged. vm_compute. repeat constructor.
  - reflexivity.
Defined.

(** X8. When the staged names are plain, the index of [src/main.go] is
    only ever appended to: after any run on a disk that has an index file,
    the file holds the bytes it held, followed by what the run appended; no
    command unstages a path. *)
Theorem main_appends_to_the_index (Args : list string) (w : World) (data : string) :
  plain_staged w →
  content indexFile w = Some data →
  ∃ more, content indexFile (after (Main.main Args w)) = Some (data +:+ more).
Proof. intros _. apply main_kept. Qed.

Lemma main_appends_to_the_index_witness :
  ∃ more, content indexFile
            (after (Main.main ["svcs"; "commit"; "first"] (staged_a "alice")))
          = Some (("a.txt" +:+ nl) +:+ more).
Proof.
  apply (main_appends_to_the_index ["svcs"; "commit"; "first"] (staged_a "alice")).
  - unfold plain_staged. vm_compute. repeat constructor.
  - reflexivity.
Defined.

(** X9. When the staged names are plain, a stored snapshot is never
    changed in [src/main.go]: after any run, a directory of the store that
    existed holds exactly the files and the bytes it held ([commit] writes
    in the directory of a hash only when no directory of that hash
    exists). *)
Theorem main_keeps_the_snapshots (Args : list string) (w : World)
    (h : string) (d : gmap string string) :
  plain_staged w →
  snapshot h w = Some d →
  snapshot h (after (Main.main Args w)) = Some d.
Proof. intros _. apply main_kept. Qed.

Lemma main_keeps_the_snapshots_witness :
  snapshot hello_hash
    (after (Main.main ["svcs"; "commit"; "second"] (edit_a "bye" (committed_a "alice"))))
  = Some {[ "a.txt" := "hello" ]}.
Proof.
  apply (main_keeps_the_snapshots ["svcs"; "commit"; "second"]
           (edit_a "bye" (committed_a "alice"))).
  - unfold plain_staged. vm_compute. repeat constructor.
  - reflexivity.
Defined.

Lemma main_config (Args : list string) (w : World) :
  (∀ prog name, Args ≠ [prog; Main.cmdConfig; name]) →
  content configFile (after (Main.main Args w)) = content configFile w.
Proof.
  intros Hnot. unfold Main.main.
  destruct Args as [|prog [|cmd args]];
    try (unfold content; rewrite displayHelp_disk; reflexivity).
  repeat case_decide.
  - unfold content. rewrite displayHelp_disk. reflexivity.
  - destruct (doConfig_run args w) as (w' & -> & _ & _ & _ & _ & Hc).
    apply Hc. subst cmd. destruct args as [|name [|? ?]]; try discriminate.
    contradiction (Hnot prog name). reflexivity.
  - destruct (doAdd_run args w) as (w' & -> & _ & Hc & _). exact Hc.
  - unfold content. rewrite doLog_disk. reflexivity.
  - apply doCommit_kept.
  - unfold content. rewrite Main_doCheckout_disk. reflexivity.
  - reflexivity.
Qed.

(** X10. When the staged names are plain, the identity changes only
    through [config <name>]: after a run of [src/main.go] with any other
    arguments ([config] with no name or with several, or any other
    command), the file of the identity holds what it held, or is absent as
    it was. *)
Theorem main_keeps_the_identity (Args : list string) (w : World) :
  plain_staged w →
  (∀ prog name, Args ≠ [prog; Main.cmdConfig; name]) →
  content configFile (after (Main.main Args w)) = content configFile w.
Proof. intros _. apply main_config. Qed.

Lemma main_keeps_the_identity_witness :
  content configFile (after (Main.main ["svcs"; "commit"; "first"] (staged_a "alice")))
  = content configFile (staged_a "alice").
Proof.
  apply (main_keeps_the_identity ["svcs"; "commit"; "first"] (staged_a "alice")).
  - unfold plain_staged. vm_compute. repeat constructor.
  - intros prog name. discriminate.
Defined.

(** X11. A first argument that is neither [--help] nor one of the five
    commands: [main] prints "'<argument>' is not a SVCS command." and
    returns, whatever follows on the command line; the disk is as it
    was. *)
Theorem main_unknown_command (prog cmd : string) (args : list string) (w : World) :
  cmd ≠ "--help" →
  cmd ∉ Main.allowedCommands →
  Main.main (prog :: cmd :: args) w
  = Done tt (printed ("'" +:+ cmd +:+ "' is not a SVCS command." +:+ nl) w).
Proof.
  intros Hhelp Hcmd. unfold Main.main, Main.allowedCommands in *.
  repeat case_decide; try contradiction; try apply Printf_run;
    subst cmd; contradiction Hcmd; set_solver.
Qed.

Lemma main_unknown_command_witness :
  Main.main ("svcs" :: "status" :: []) (committed_a "alice")
  = Done tt (printed ("'" +:+ "status" +:+ "' is not a SVCS command." +:+ nl)
               (committed_a "alice")).
Proof.
  apply main_unknown_command.
  - discriminate.
  - vm_compute. intros Hin. repeat (apply elem_of_cons in Hin as [Hin|Hin]; [discriminate|]).
    inversion Hin.
Defined.

(** ** The hash *)

Lemma round_length (st : list N) (kw : N * N) :
  length (Sha256.round st kw) = length st.
Proof.
  unfold Sha256.round.
  do 9 (destruct st as [|? st]; [reflexivity|]). reflexivity.
Qed.

Lemma rounds_length (kws : list (N * N)) (st : list N) :
  length (fold_left Sha256.round kws st) = length st.
Proof.
  revert st. induction kws as [|kw kws IH]; intros st; [reflexivity|].
  simpl. rewrite IH. apply round_length.
Qed.

Lemma compress_length (st block : list N) :
  length (Sha256.compress st block) = length st.
Proof.
  unfold Sha256.compress. rewrite length_zip_with_l_eq; [reflexivity|].
  symmetry. apply rounds_length.
Qed.

Lemma compressions_length (blocks : list (list N)) (st : list N) :
  length (fold_left Sha256.compress blocks st) = length st.
Proof.
  revert st. induction blocks as [|b blocks IH]; intros st; [reflexivity|].
  simpl. rewrite IH. apply compress_length.
Qed.

Lemma sum_length (msg : list N) : length (Sha256.sum msg) = 32.
Proof.
  unfold Sha256.sum.
  rewrite (flat_map_constant_length (c := 4)).
  - rewrite compressions_length. reflexivity.
  - intros x _. unfold Sha256.be_bytes. rewrite length_map, length_rev, length_seq.
    reflexivity.
Qed.

Lemma EncodeToString_length (bs : list N) :
  String.length (Hex.EncodeToString bs) = 2 * length bs.
Proof. induction bs as [|b bs IH]; [reflexivity|]. simpl. rewrite IH. lia. Qed.

Lemma digit_hex (n : N) : lower_hex (String (Hex.digit n) "") = true.
Proof.
  unfold Hex.digit. generalize (N.to_nat n). intros k.
  do 16 (destruct k as [|k]; [vm_compute; reflexivity|]).
  destruct k; vm_compute; reflexivity.
Qed.

Lemma EncodeToString_hex (bs : list N) : lower_hex (Hex.EncodeToString bs) = true.
Proof.
  induction bs as [|b bs IH]; [reflexivity|].
  pose proof (digit_hex (N.shiftr b 4)) as Hhi.
  pose proof (digit_hex (N.land b 15)) as Hlo.
  cbn [Hex.EncodeToString lower_hex] in *.
  rewrite andb_true_r in Hhi, Hlo. rewrite Hhi, Hlo, IH. reflexivity.
Qed.

Lemma lower_hex_has (c : ascii) (s : string) :
  lower_hex (String c "") = false → lower_hex s = true → has c s = false.
Proof.
  intros Hc. induction s as [|c' s IH]; [reflexivity|].
  cbn [lower_hex has]. intros [Hc' Hs]%andb_true_iff.
  destruct (decide (c' = c)) as [->|_]; [|exact (IH Hs)].
  cbn [lower_hex] in Hc. rewrite andb_true_r in Hc. congruence.
Qed.

Lemma sha256_hex_plain (data : string) :
  String.length (sha256_hex data) = 64
  ∧ lower_hex (sha256_hex data) = true
  ∧ has space (sha256_hex data) = false
  ∧ has newline (sha256_hex data) = false.
Proof.
  unfold sha256_hex.
  pose proof (EncodeToString_hex (Sha256.sum (bytes_of data))) as Hhex.
  split; [rewrite EncodeToString_length, sum_length; reflexivity|].
  split; [exact Hhex|].
  split; apply lower_hex_has; try exact Hhex; vm_compute; reflexivity.
Qed.

Lemma hashed_bytes_world (files : list string) (written : string) (w : World) :
  after (hashed_bytes files written w) = w.
Proof.
  destruct (readable_or_not w files) as [Hfiles|Hbad].
  - rewrite hashed_bytes_run by assumption. reflexivity.
  - rewrite hashed_bytes_fatal by assumption. reflexivity.
Qed.

(** X12. Whatever the files, the hash that [computeHash] returns is made of
    64 characters, each one of [0-9a-f]: it holds no space and no newline,
    so that it is always the first field of its line of the log; and
    [computeHash] changes nothing in the world. *)
Theorem computeHash_is_plain_hex (files : list string) (w w' : World) (hash : string) :
  Main.computeHash files w = Done hash w' →
  w' = w
  ∧ String.length hash = 64
  ∧ lower_hex hash = true
  ∧ has space hash = false
  ∧ has newline hash = false.
Proof.
  unfold Main.computeHash. rewrite bind_run.
  pose proof (hashed_bytes_world files "" w) as Hw.
  destruct (hashed_bytes files "" w) as [written w1|s w1]; [|discriminate].
  simpl in Hw. subst w1. rewrite ret_run. intros [= <- <-].
  split; [reflexivity|]. apply sha256_hex_plain.
Qed.

Lemma computeHash_is_plain_hex_witness :
  staged_a "alice" = staged_a "alice"
  ∧ String.length hello_hash = 64
  ∧ lower_hex hello_hash = true
  ∧ has space hello_hash = false
  ∧ has newline hello_hash = false.
Proof.
  apply (computeHash_is_plain_hex ["a.txt"] (staged_a "alice")).
  vm_compute. reflexivity.
Defined.

(** ** What [commit] compares *)

Lemma Main_doCommit_after (w w1 : World) (message name : string) :
  getUsername w = Done (name, None) w →
  staged w ≠ [] →
  Forall (readable w) (staged w) →
  Main.doCommit [message] w = Done tt w1 →
  tree (disk w1) = tree (disk w)
  ∧ content configFile w1 = content configFile w
  ∧ content indexFile w1 = content indexFile w
  ∧ is_Some (snapshot (digest w) w1).
Proof.
  intros Hname Hsome Hfiles Hfirst.
  destruct (snapshot (digest w) w) as [d|] eqn:Hd.
  - rewrite (Main_doCommit_seen w message name) in Hfirst by (rewrite ?Hd; eauto).
    injection Hfirst as <-. rewrite snapshot_printed, Hd. eauto.
  - destruct (Main_doCommit_new w message name Hname Hfiles Hd)
      as (w' & Hrun & _ & Ht & Hc & Hi & _ & _ & Hdir).
    rewrite Hrun in Hfirst. injection Hfirst as <-. auto.
Qed.

(** X13. [computeHash] hashes the bytes of the staged files one after the
    other, and nothing else: in [src/main.go], once a commit of a non-empty
    staged sequence of plain names has returned, a working tree in which the
    staged files
    are regular files whose bytes, put end to end, are the same (bytes moved
    from the end of one file to the start of the next, say) is not seen as
    changed: [commit] prints "Nothing to commit." and writes nothing. *)
Theorem commit_misses_moved_bytes (w w1 w2 : World) (m1 m2 name : string) :
  getUsername w = Done (name, None) w →
  staged w ≠ [] →
  plain_staged w →
  Forall (readable w) (staged w) →
  Main.doCommit [m1] w = Done tt w1 →
  vcsDir (disk w2) = vcsDir (disk w1) →
  Forall (readable w2) (staged w2) →
  bytes_in (tree (disk w2)) (staged w2) = bytes_in (tree (disk w)) (staged w) →
  Main.doCommit [m2] w2 = Done tt (printed ("Nothing to commit." +:+ nl) w2).
Proof.
  intros Hname Hsome _ Hfiles Hfirst Hvcs Hfiles2 Hbytes.
  destruct (Main_doCommit_after w w1 m1 name Hname Hsome Hfiles Hfirst)
    as (_ & Hc & Hi & Hdir).
  assert (Hcontent : ∀ f, content f w2 = content f w1)
    by (intros f; unfold content; rewrite Hvcs; reflexivity).
  assert (Hdigest : digest w2 = digest w) by (unfold digest; rewrite Hbytes; reflexivity).
  apply (Main_doCommit_seen w2 m2 name).
  - apply (identity_same_config w); [rewrite Hcontent; exact Hc|exact Hname].
  - exact Hfiles2.
  - rewrite Hdigest. unfold snapshot in *. rewrite Hvcs. exact Hdir.
Qed.

Lemma commit_misses_moved_bytes_witness :
  Main.doCommit ["second"] (committed_ab "he" "llo")
  = Done tt (printed ("Nothing to commit." +:+ nl) (committed_ab "he" "llo")).
Proof.
  apply (commit_misses_moved_bytes (staged_ab "hello" "" ∅)
           (printed ("Changes are committed." +:+ nl) (committed_ab "hello" ""))
           (committed_ab "he" "llo") "first" "second" "alice").
  - reflexivity.
  - discriminate.
  - unfold plain_staged. vm_compute. repeat constructor.
  - repeat constructor; eexists; reflexivity.
  - vm_compute. reflexivity.
  - reflexivity.
  - repeat constructor; eexists; reflexivity.
  - reflexivity.
Defined.

(** X14. In [src/main.go], for a non-empty staged sequence of plain names
    of regular files, a [commit] that has returned is followed by a [commit] that
    prints "Nothing to commit." and changes nothing on the disk, whatever
    the two messages. *)
Theorem commit_again_main (w w1 : World) (m1 m2 name : string) :
  getUsername w = Done (name, None) w →
  staged w ≠ [] →
  plain_staged w →
  Forall (readable w) (staged w) →
  Main.doCommit [m1] w = Done tt w1 →
  Main.doCommit [m2] w1 = Done tt (printed ("Nothing to commit." +:+ nl) w1).
Proof. intros Hname Hsome _. apply (Main_commit_twice w w1 m1 m2 name Hname Hsome). Qed.

Lemma commit_again_main_witness :
  Main.doCommit ["second"] (printed ("Changes are committed." +:+ nl) (committed_a "alice"))
  = Done tt (printed ("Nothing to commit." +:+ nl)
               (printed ("Changes are committed." +:+ nl) (committed_a "alice"))).
Proof.
  apply (commit_again_main (staged_a "alice") _ "first" "second" "alice").
  - reflexivity.
  - discriminate.
  - unfold plain_staged. vm_compute. repeat constructor.
  - repeat constructor. exists "hello". reflexivity.
  - vm_compute. reflexivity.
Defined.

(** X15. In [src/unnamed/part_000], with an identity and staged paths that
    are regular files, a [commit] that has returned is followed by a
    [commit] that prints "Nothing to commit." and changes nothing on the
    disk: the first one left nothing staged. *)
Theorem commit_again_part000 (w w1 : World) (m1 m2 name : string) :
  getUsername w = Done (name, None) w →
  Forall (readable w) (staged w) →
  Part000.doCommit [m1] w = Done tt w1 →
  Part000.doCommit [m2] w1 = Done tt (printed ("Nothing to commit." +:+ nl) w1).
Proof. apply Part000_commit_twice. Qed.

Lemma commit_again_part000_witness :
  Part000.doCommit ["second"]
    (printed ("Changes are commited." +:+ nl) (committed_a_cleared "alice"))
  = Done tt (printed ("Nothing to commit." +:+ nl)
               (printed ("Changes are commited." +:+ nl) (committed_a_cleared "alice"))).
Proof.
  apply (commit_again_part000 (staged_a "alice") _ "first" "second" "alice").
  - reflexivity.
  - repeat constructor. exists "hello". reflexivity.
  - vm_compute. reflexivity.
Defined.

(** X16. [commit] of [src/unnamed/part_000] does not look at the store:
    with an identity and a non-empty staged sequence of plain names of
    regular files it
    copies the files under their hash, appends an entry to the log and
    truncates the index, also when a directory of that hash exists: the
    same content staged and committed again gives a second entry of the
    same hash. The working tree is as it was. *)
Theorem part000_commit_ignores_the_store (w : World) (message name : string) :
  getUsername w = Done (name, None) w →
  staged w ≠ [] →
  plain_staged w →
  Forall (readable w) (staged w) →
  ∃ w', Part000.doCommit [message] w = Done tt w'
        ∧ stdout w' = stdout w +:+ "Changes are commited." +:+ nl
        ∧ content logFile w'
          = Some (default "" (content logFile w)
                  +:+ digest w +:+ " " +:+ name +:+ " " +:+ message +:+ nl)
        ∧ result (getTrackedFiles w') = Some []
        ∧ (∀ f, f ∈ staged w → stored (digest w) w' f)
        ∧ tree (disk w') = tree (disk w).
Proof.
  intros Hname Hsome _ Hfiles.
  destruct (Part000_doCommit_run w message name Hname Hsome Hfiles)
    as (w' & Hrun & Hout & Ht & _ & _ & Hstaged & Hlog & Hall & _).
  exists w'. rewrite getTrackedFiles_staged, Hstaged. repeat split; assumption.
Qed.

Lemma part000_commit_ignores_the_store_witness :
  ∃ w', Part000.doCommit ["again"] (committed_a "alice") = Done tt w'
        ∧ stdout w' = stdout (committed_a "alice") +:+ "Changes are commited." +:+ nl
        ∧ content logFile w'
          = Some (default "" (content logFile (committed_a "alice"))
                  +:+ digest (committed_a "alice") +:+ " " +:+ "alice" +:+ " "
                  +:+ "again" +:+ nl)
        ∧ result (getTrackedFiles w') = Some []
        ∧ (∀ f, f ∈ staged (committed_a "alice")
                → stored (digest (committed_a "alice")) w' f)
        ∧ tree (disk w') = tree (disk (committed_a "alice")).
Proof.
  apply (part000_commit_ignores_the_store (committed_a "alice") "again" "alice").
  - reflexivity.
  - discriminate.
  - unfold plain_staged. vm_compute. repeat constructor.
  - repeat constructor. exists "hello". reflexivity.
Defined.

(** ** The lines of the log *)

Lemma Cut_Some (s : string) (sep : ascii) (before after : string) :
  Strings.Cut s sep = Some (before, after) →
  s = before +:+ String sep after
  ∧ has sep before = false
  ∧ count_char sep s = S (count_char sep after).
Proof.
  revert before. induction s as [|c s IH]; intros before; simpl; [discriminate|].
  destruct (decide (c = sep)) as [->|Hc].
  - intros [= <- <-]. auto.
  - destruct (Strings.Cut s sep) as [[b a]|]; [|discriminate].
    intros [= <- <-]. destruct (IH b eq_refl) as (Hs & Hb & Hn).
    split; [rewrite sapp_cons, <- Hs; reflexivity|].
    split; [|exact Hn].
    simpl. destruct (decide (c = sep)); [contradiction|exact Hb].
Qed.

Lemma Cut_None (s : string) (sep : ascii) :
  Strings.Cut s sep = None → count_char sep s = 0.
Proof.
  induction s as [|c s IH]; simpl; [reflexivity|].
  destruct (decide (c = sep)); [discriminate|].
  destruct (Strings.Cut s sep) as [[b a]|]; [discriminate|]. intros _. exact (IH eq_refl).
Qed.

Lemma fields_run (line : string) :
  fields line
  = match Strings.Cut line space with
    | Some (h, rest) =>
        match Strings.Cut rest space with
        | Some (a, m) => Some (h, a, m)
        | None => None
        end
    | None => None
    end.
Proof.
  unfold fields. simpl Strings.SplitN.
  destruct (Strings.Cut line space) as [[h rest]|]; [|reflexivity].
  destruct (Strings.Cut rest space) as [[a m]|]; reflexivity.
Qed.

Lemma fields_None (line : string) : fields line = None ↔ count_char space line < 2.
Proof.
  rewrite fields_run.
  destruct (Strings.Cut line space) as [[h rest]|] eqn:Hline.
  - destruct (Cut_Some _ _ _ _ Hline) as (_ & _ & ->).
    destruct (Strings.Cut rest space) as [[a m]|] eqn:Hrest.
    + destruct (Cut_Some _ _ _ _ Hrest) as (_ & _ & ->). split; [discriminate|lia].
    + rewrite (Cut_None _ _ Hrest). split; [lia|reflexivity].
  - rewrite (Cut_None _ _ Hline). split; [lia|reflexivity].
Qed.

Lemma fields_Some (line h a m : string) :
  fields line = Some (h, a, m) →
  line = h +:+ " " +:+ a +:+ " " +:+ m ∧ has space h = false ∧ has space a = false.
Proof.
  rewrite fields_run.
  destruct (Strings.Cut line space) as [[h' rest]|] eqn:Hline; [|discriminate].
  destruct (Strings.Cut rest space) as [[a' m']|] eqn:Hrest; [|discriminate].
  intros [= <- <- <-].
  destruct (Cut_Some _ _ _ _ Hline) as (-> & Hh & _).
  destruct (Cut_Some _ _ _ _ Hrest) as (-> & Ha & _).
  auto.
Qed.

Lemma parse_None (line : string) :
  MainSpec.parse line = None ↔ count_char space line < 2.
Proof.
  rewrite <- fields_None. unfold MainSpec.parse.
  destruct (fields line) as [[[h a] m]|]; simpl; split; congruence.
Qed.

Lemma parse_lines (lines : list string) :
  Forall (λ line, 2 ≤ count_char space line) lines →
  ∃ cs, mapM MainSpec.parse lines = Some cs
        ∧ MainSpec.raw_line <$> cs = lines
        ∧ Forall (λ c, has space (Main.Hash c) = false
                       ∧ has space (Main.Username c) = false) cs.
Proof.
  induction 1 as [|line lines Hline _ (cs & Hcs & Hraw & Hplain)].
  - exists []. repeat split. constructor.
  - destruct (fields line) as [[[h a] m]|] eqn:Hf.
    + destruct (fields_Some _ _ _ _ Hf) as (Hl & Hh & Ha).
      exists (Main.mkCommit h a m :: cs).
      split; [|split].
      * apply mapM_Some. constructor; [|apply mapM_Some, Hcs].
        unfold MainSpec.parse. rewrite Hf. reflexivity.
      * rewrite fmap_cons, Hraw, Hl. reflexivity.
      * constructor; [split; assumption|exact Hplain].
    + apply fields_None in Hf. lia.
Qed.

(** X17. A line of the log with fewer than two spaces has no third field:
    [getCommits] indexes [data[1]] or [data[2]] out of range, so that [log]
    and [checkout <hash>] of [src/main.go] and [log] of
    [src/unnamed/part_000] panic, having printed nothing, whatever the other
    lines are. [commit] writes such a line for a message of two lines. *)
Theorem log_panics_on_a_short_line (w : World) (data hash : string) :
  content logFile w = Some data →
  Exists (λ line, count_char space line < 2) (Bufio.scan data).1 →
  Main.doLog w = Stopped Panic w
  ∧ Main.doCheckout [hash] w = Stopped Panic w
  ∧ Part000.doLog w = Stopped Panic w.
Proof.
  intros Hdata Hshort.
  assert (Hnone : mapM MainSpec.parse (Bufio.scan data).1 = None).
  { apply mapM_None. eapply Exists_impl; [exact Hshort|].
    intros line. apply parse_None. }
  assert (Hmain : Main.getCommits w = Stopped Panic w)
    by (rewrite Main_getCommits_run, Hdata, Hnone; reflexivity).
  assert (Hpart : Part000.getCommits w = Stopped Panic w)
    by (rewrite Part000_getCommits_run, Hdata, Hnone; reflexivity).
  split; [|split].
  - unfold Main.doLog. apply bind_Stopped, Hmain.
  - unfold Main.doCheckout, Main.findCommit.
    apply bind_Stopped, bind_Stopped, Hmain.
  - unfold Part000.doLog. apply bind_Stopped, Hpart.
Qed.

Lemma log_panics_on_a_short_line_witness :
  Main.doLog broken_log = Stopped Panic broken_log
  ∧ Main.doCheckout [hello_hash] broken_log = Stopped Panic broken_log
  ∧ Part000.doLog broken_log = Stopped Panic broken_log.
Proof.
  apply (log_panics_on_a_short_line broken_log
           (hello_hash +:+ " alice x" +:+ nl +:+ "y" +:+ nl) hello_hash).
  - reflexivity.
  - assert (Hscan : (Bufio.scan (hello_hash +:+ " alice x" +:+ nl +:+ "y" +:+ nl)).1
                    = [hello_hash +:+ " alice x"; "y"]) by (vm_compute; reflexivity).
    rewrite Hscan. apply Exists_cons_tl, Exists_cons_hd. vm_compute. lia.
Defined.

(** X18. When every line of the log has two spaces or more, [getCommits]
    does not panic, and it cuts each line at its first two spaces and
    nowhere else: hash, author and message joined by single spaces give the
    lines of the file back, in order, and no hash and no author that it
    returns holds a space. *)
Theorem getCommits_cuts_at_two_spaces (w : World) (data : string) :
  content logFile w = Some data →
  Forall (λ line, 2 ≤ count_char space line) (Bufio.scan data).1 →
  ∃ cs, Main.getCommits w = Done cs w
        ∧ MainSpec.raw_line <$> cs = (Bufio.scan data).1
        ∧ Forall (λ c, has space (Main.Hash c) = false
                       ∧ has space (Main.Username c) = false) cs.
Proof.
  intros Hdata Hlines.
  destruct (parse_lines _ Hlines) as (cs & Hcs & Hraw & Hplain).
  exists cs. rewrite Main_getCommits_run, Hdata, Hcs. auto.
Qed.

Lemma getCommits_cuts_at_two_spaces_witness :
  ∃ cs, Main.getCommits (committed_a "alice") = Done cs (committed_a "alice")
        ∧ MainSpec.raw_line <$> cs
          = (Bufio.scan (hello_hash +:+ " " +:+ "alice" +:+ " first" +:+ nl)).1
        ∧ Forall (λ c, has space (Main.Hash c) = false
                       ∧ has space (Main.Username c) = false) cs.
Proof.
  apply (getCommits_cuts_at_two_spaces (committed_a "alice")
           (hello_hash +:+ " " +:+ "alice" +:+ " first" +:+ nl)).
  - reflexivity.
  - assert (Hscan : (Bufio.scan (hello_hash +:+ " " +:+ "alice" +:+ " first" +:+ nl)).1
                    = [hello_hash +:+ " alice first"]) by (vm_compute; reflexivity).
    rewrite Hscan. repeat constructor.
Defined.

(** ** From [commit] to [log] *)

Lemma cut_lines_plain (data : string) :
  Forall (λ l, has newline l = false) (Bufio.cut_lines data).1
  ∧ has newline (Bufio.cut_lines data).2 = false.
Proof.
  induction data as [|c data [IHl IHr]]; [split; [constructor|reflexivity]|].
  simpl. destruct (Bufio.cut_lines data) as [ls r]. simpl in IHl, IHr.
  destruct (decide (c = "010"%char)) as [|Hc].
  - split; [constructor; [reflexivity|exact IHl]|exact IHr].
  - assert (Hcons : ∀ s, has newline s = false → has newline (String c s) = false).
    { intros s Hs. simpl. unfold newline.
      destruct (decide (c = "010"%char)); [contradiction|exact Hs]. }
    destruct ls as [|l ls'].
    + split; [constructor|apply Hcons, IHr].
    + inversion IHl; subst. split; [constructor; [apply Hcons|]; assumption|exact IHr].
Qed.

Lemma dropCR_plain (c : ascii) (s : string) :
  has c s = false → has c (Bufio.dropCR s) = false.
Proof.
  induction s as [|c0 s IH]; [reflexivity|].
  destruct s as [|c1 s1].
  - simpl. destruct (decide (c0 = "013"%char)); [reflexivity|].
    simpl. intros H. exact H.
  - change (Bufio.dropCR (String c0 (String c1 s1)))
      with (String c0 (Bufio.dropCR (String c1 s1))).
    cbn [has]. destruct (decide (c0 = c)); [discriminate|]. exact IH.
Qed.

Lemma scan_tokens_plain (raws : list string) :
  Forall (λ l, has newline l = false) raws →
  Forall (λ t, has newline t = false) (Bufio.scan_tokens raws).1.
Proof.
  induction 1 as [|raw raws Hraw _ IH]; [constructor|].
  simpl. destruct (Bufio.fits raw); [|constructor].
  destruct (Bufio.scan_tokens raws) as [ts e]. simpl in *.
  constructor; [apply dropCR_plain, Hraw|exact IH].
Qed.

Lemma scan_plain (data : string) :
  Forall (λ t, has newline t = false) (Bufio.scan data).1.
Proof.
  unfold Bufio.scan, Bufio.raw_lines. destruct (cut_lines_plain data) as [Hl Hr].
  destruct (Bufio.cut_lines data) as [ls r]. simpl in *.
  apply scan_tokens_plain, Forall_app. split; [exact Hl|].
  destruct r; repeat constructor. exact Hr.
Qed.

Lemma identity_plain (w : World) (name : string) (e : option error) :
  getUsername w = Done (name, e) w → has newline name = false.
Proof.
  rewrite getUsername_run.
  destruct (content configFile w) as [data|]; [|intros [= <- _]; reflexivity].
  intros [= <- _]. unfold Bufio.scan_once.
  pose proof (scan_plain data) as Hplain.
  destruct (Bufio.scan data) as [[|t ts] err]; [reflexivity|].
  simpl in *. inversion Hplain; assumption.
Qed.

Lemma log_data_append (old : string) (cs : list Main.Commit) (c : Main.Commit) :
  (Bufio.cut_lines old).2 = "" →
  (Bufio.scan old).2 = None →
  mapM MainSpec.parse (Bufio.scan old).1 = Some cs →
  MainSpec.storable c = true →
  (Bufio.cut_lines (old +:+ Main.logLine c)).2 = ""
  ∧ (Bufio.scan (old +:+ Main.logLine c)).2 = None
  ∧ mapM MainSpec.parse (Bufio.scan (old +:+ Main.logLine c)).1 = Some (cs ++ [c]).
Proof.
  intros Hend Hscan Hparse Hc.
  destruct (storable_line c Hc) as (Hnl & Hfits & Hcr & Hline).
  rewrite logLine_raw.
  assert (Hold : Bufio.scan_tokens (Bufio.raw_lines old) = ((Bufio.scan old).1, None)).
  { unfold Bufio.scan in *. destruct (Bufio.scan_tokens _) as [ts e].
    simpl in *. subst e. reflexivity. }
  destruct (raw_lines_append old _ Hend Hnl) as [Hraw Hend'].
  assert (Hscan' : Bufio.scan (old +:+ MainSpec.raw_line c +:+ nl)
                   = ((Bufio.scan old).1 ++ [MainSpec.raw_line c], None)).
  { unfold Bufio.scan at 1. rewrite Hraw.
    rewrite (scan_tokens_append _ _ _ Hold Hfits), Hcr. reflexivity. }
  rewrite Hscan'. split; [exact Hend'|]. split; [reflexivity|].
  apply mapM_snoc; assumption.
Qed.

Lemma log_grown_reads (w w' : World) (cs : list Main.Commit) (c : Main.Commit) :
  intact logFile w →
  Main.getCommits w = Done cs w →
  MainSpec.storable c = true →
  content logFile w' = Some (default "" (content logFile w) +:+ Main.logLine c) →
  intact logFile w' ∧ Main.getCommits w' = Done (cs ++ [c]) w'.
Proof.
  intros Hintact Hread Hc Hlog.
  destruct (intact_data logFile w Hintact) as [Hend Hscan].
  assert (Hparse : mapM MainSpec.parse (Bufio.scan (default "" (content logFile w))).1
                   = Some cs).
  { rewrite Main_getCommits_run in Hread.
    destruct (content logFile w) as [data|]; simpl.
    - destruct (mapM _ _); congruence.
    - injection Hread as <-. reflexivity. }
  destruct (log_data_append _ cs c Hend Hscan Hparse Hc) as (Hend' & Hscan' & Hparse').
  split.
  - unfold intact. rewrite Hlog. auto.
  - rewrite Main_getCommits_run, Hlog, Hparse'. reflexivity.
Qed.

(** The commit that the next [getCommits] reads for the line that [commit]
    writes, whatever the fields it cuts the line into. *)
Lemma commit_line_reads (w w' : World) (cs : list Main.Commit) (c : Main.Commit)
    (line : string) :
  intact logFile w →
  Main.getCommits w = Done cs w →
  MainSpec.storable c = true →
  line = Main.logLine c →
  content logFile w' = Some (default "" (content logFile w) +:+ line) →
  intact logFile w'
  ∧ Main.getCommits w' = Done (cs ++ [c]) w'
  ∧ Main.doLog w' = Done tt (printed (MainSpec.history (c :: rev cs)) w')
  ∧ Part000.getCommits w' = Done (MainSpec.upgrade <$> c :: rev cs) w'
  ∧ Part000.doLog w' = Done tt (printed (MainSpec.history (c :: rev cs)) w').
Proof.
  intros Hintact Hread Hc -> Hlog.
  destruct (log_grown_reads w w' cs c Hintact Hread Hc Hlog) as [Hintact' Hread'].
  destruct (doLog_history w' _ Hread') as (_ & Hmain & Hpart & Hpart').
  rewrite rev_app_distr in Hmain, Hpart, Hpart'. auto.
Qed.

Lemma digest_storable (w : World) (name message : string) :
  has space name = false → has newline name = false →
  has newline message = false → ends_with_cr message = false →
  Bufio.fits (digest w +:+ " " +:+ name +:+ " " +:+ message) = true →
  MainSpec.storable (Main.mkCommit (digest w) name message) = true.
Proof.
  intros Hsp Hnl Hm Hcr Hfits.
  destruct (sha256_hex_plain (bytes_in (tree (disk w)) (staged w))) as (_ & _ & Hs & Hn).
  fold (digest w) in Hs, Hn.
  unfold MainSpec.storable, MainSpec.raw_line.
  cbn [Main.Hash Main.Username Main.Message].
  rewrite Hs, Hn, Hsp, Hnl, Hm, Hcr, Hfits. reflexivity.
Qed.

(** X19. [commit] and then [log], in [src/main.go]: with an identity that
    holds no space, staged plain names of regular files, no snapshot of
    their hash in the store, a message without newline and without a final
    carriage return, and a line shorter than the buffer of the scanner,
    after [commit] the log reads as it did before followed by the new
    commit, and [log] prints the new commit first, with its hash, the
    identity and the message, above what it printed before. *)
Theorem commit_then_log (w : World) (cs : list Main.Commit) (message name : string) :
  getUsername w = Done (name, None) w →
  plain_staged w →
  Forall (readable w) (staged w) →
  snapshot (digest w) w = None →
  intact logFile w →
  Main.getCommits w = Done cs w →
  has space name = false →
  has newline message = false →
  ends_with_cr message = false →
  Bufio.fits (digest w +:+ " " +:+ name +:+ " " +:+ message) = true →
  ∃ w', Main.doCommit [message] w = Done tt w'
        ∧ Main.getCommits w' = Done (cs ++ [Main.mkCommit (digest w) name message]) w'
        ∧ Main.doLog w'
          = Done tt (printed (record (digest w) name message
                              +:+ foldr (λ c acc, nl +:+ MainSpec.record_of c +:+ acc) ""
                                    (rev cs)) w').
Proof.
  intros Hname _ Hfiles Hnew Hintact Hread Hsp Hm Hcr Hfits.
  destruct (Main_doCommit_new w message name Hname Hfiles Hnew)
    as (w' & Hrun & _ & _ & _ & _ & Hlog & _).
  pose proof (digest_storable w name message Hsp (identity_plain w name None Hname)
                Hm Hcr Hfits) as Hc.
  destruct (commit_line_reads w w' cs _ _ Hintact Hread Hc eq_refl Hlog)
    as (_ & Hread' & Hmain & _).
  exists w'. auto.
Qed.

Lemma commit_then_log_witness :
  ∃ w', Main.doCommit ["first"] (staged_a "alice") = Done tt w'
        ∧ Main.getCommits w'
          = Done ([] ++ [Main.mkCommit (digest (staged_a "alice")) "alice" "first"]) w'
        ∧ Main.doLog w'
          = Done tt (printed (record (digest (staged_a "alice")) "alice" "first"
                              +:+ foldr (λ c acc, nl +:+ MainSpec.record_of c +:+ acc) ""
                                    (rev [])) w').
Proof.
  apply (commit_then_log (staged_a "alice") [] "first" "alice").
  - reflexivity.
  - unfold plain_staged. vm_compute. repeat constructor.
  - repeat constructor. exists "hello". reflexivity.
  - reflexivity.
  - exact I.
  - reflexivity.
  - reflexivity.
  - reflexivity.
  - reflexivity.
  - vm_compute. reflexivity.
Defined.

(** X20. The same in [src/unnamed/part_000], where [commit] does not look
    at the store: with an identity that holds no space and a non-empty
    staged sequence of plain names of regular files, after [commit] the log is read with
    the new commit first (its [Files] empty), and [log] prints it above
    the earlier ones. *)
Theorem commit_then_log_part000 (w : World) (cs : list Main.Commit)
    (message name : string) :
  getUsername w = Done (name, None) w →
  staged w ≠ [] →
  plain_staged w →
  Forall (readable w) (staged w) →
  intact logFile w →
  Main.getCommits w = Done cs w →
  has space name = false →
  has newline message = false →
  ends_with_cr message = false →
  Bufio.fits (digest w +:+ " " +:+ name +:+ " " +:+ message) = true →
  ∃ w', Part000.doCommit [message] w = Done tt w'
        ∧ Part000.getCommits w'
          = Done (Part000.mkCommit (digest w) (Part000.mkPerson name) message []
                  :: (MainSpec.upgrade <$> rev cs)) w'
        ∧ Part000.doLog w'
          = Done tt (printed (record (digest w) name message
                              +:+ foldr (λ c acc, nl +:+ MainSpec.record_of c +:+ acc) ""
                                    (rev cs)) w').
Proof.
  intros Hname Hsome _ Hfiles Hintact Hread Hsp Hm Hcr Hfits.
  destruct (Part000_doCommit_run w message name Hname Hsome Hfiles)
    as (w' & Hrun & _ & _ & _ & _ & _ & Hlog & _).
  pose proof (digest_storable w name message Hsp (identity_plain w name None Hname)
                Hm Hcr Hfits) as Hc.
  destruct (commit_line_reads w w' cs _ _ Hintact Hread Hc eq_refl Hlog)
    as (_ & _ & _ & Hpart & Hpart').
  exists w'. auto.
Qed.

Lemma commit_then_log_part000_witness :
  ∃ w', Part000.doCommit ["first"] (staged_a "alice") = Done tt w'
        ∧ Part000.getCommits w'
          = Done (Part000.mkCommit (digest (staged_a "alice")) (Part000.mkPerson "alice")
                    "first" []
                  :: (MainSpec.upgrade <$> rev [])) w'
        ∧ Part000.doLog w'
          = Done tt (printed (record (digest (staged_a "alice")) "alice" "first"
                              +:+ foldr (λ c acc, nl +:+ MainSpec.record_of c +:+ acc) ""
                                    (rev [])) w').
Proof.
  apply (commit_then_log_part000 (staged_a "alice") [] "first" "alice").
  - reflexivity.
  - discriminate.
  - unfold plain_staged. vm_compute. repeat constructor.
  - repeat constructor. exists "hello". reflexivity.
  - exact I.
  - reflexivity.
  - reflexivity.
  - reflexivity.
  - reflexivity.
  - vm_compute. reflexivity.
Defined.

(** X21. An identity of two words does not come back from the log: for an
    identity [first rest] whose first word holds no space, and staged plain
    names of regular files, [commit] of [src/main.go] writes the line [hash first rest message], and
    [getCommits] then reads a commit whose author is [first] and whose
    message is [rest message]; this is what [log] shows. *)
Theorem author_of_two_words_is_cut (w : World) (cs : list Main.Commit)
    (message first rest : string) :
  getUsername w = Done (first +:+ " " +:+ rest, None) w →
  plain_staged w →
  Forall (readable w) (staged w) →
  snapshot (digest w) w = None →
  intact logFile w →
  Main.getCommits w = Done cs w →
  has space first = false →
  has newline message = false →
  ends_with_cr message = false →
  Bufio.fits (digest w +:+ " " +:+ first +:+ " " +:+ rest +:+ " " +:+ message) = true →
  ∃ w', Main.doCommit [message] w = Done tt w'
        ∧ Main.getCommits w'
          = Done (cs ++ [Main.mkCommit (digest w) first (rest +:+ " " +:+ message)]) w'
        ∧ Main.doLog w'
          = Done tt (printed (record (digest w) first (rest +:+ " " +:+ message)
                              +:+ foldr (λ c acc, nl +:+ MainSpec.record_of c +:+ acc) ""
                                    (rev cs)) w').
Proof.
  intros Hname _ Hfiles Hnew Hintact Hread Hsp Hm Hcr Hfits.
  destruct (Main_doCommit_new w message _ Hname Hfiles Hnew)
    as (w' & Hrun & _ & _ & _ & _ & Hlog & _).
  pose proof (identity_plain w _ None Hname) as Hplain.
  rewrite !has_sapp, !orb_false_iff in Hplain. destruct Hplain as (Hf & _ & Hr).
  assert (Hc : MainSpec.storable
                 (Main.mkCommit (digest w) first (rest +:+ " " +:+ message)) = true).
  { apply digest_storable; try assumption.
    - rewrite !has_sapp, Hr, Hm. reflexivity.
    - change (" " +:+ message) with (String space message).
      rewrite ends_with_cr_sapp. destruct message; [reflexivity|exact Hcr]. }
  assert (Hline : Main.logLine (Main.mkCommit (digest w) (first +:+ " " +:+ rest) message)
                  = Main.logLine
                      (Main.mkCommit (digest w) first (rest +:+ " " +:+ message))).
  { unfold Main.logLine. cbn [Main.Hash Main.Username Main.Message].
    rewrite !sapp_assoc. reflexivity. }
  destruct (commit_line_reads w w' cs _ _ Hintact Hread Hc Hline Hlog)
    as (_ & Hread' & Hmain & _).
  exists w'. auto.
Qed.

Lemma author_of_two_words_is_cut_witness :
  ∃ w', Main.doCommit ["first"] (staged_a ("John" +:+ " " +:+ "Smith")) = Done tt w'
        ∧ Main.getCommits w'
          = Done ([] ++ [Main.mkCommit (digest (staged_a ("John" +:+ " " +:+ "Smith")))
                           "John" ("Smith" +:+ " " +:+ "first")]) w'
        ∧ Main.doLog w'
          = Done tt (printed (record (digest (staged_a ("John" +:+ " " +:+ "Smith")))
                                "John" ("Smith" +:+ " " +:+ "first")
                              +:+ foldr (λ c acc, nl +:+ MainSpec.record_of c +:+ acc) ""
                                    (rev [])) w').
Proof.
  apply (author_of_two_words_is_cut (staged_a ("John" +:+ " " +:+ "Smith")) []
           "first" "John" "Smith").
  - reflexivity.
  - unfold plain_staged. vm_compute. repeat constructor.
  - repeat constructor. exists "hello". reflexivity.
  - reflexivity.
  - exact I.
  - reflexivity.
  - reflexivity.
  - reflexivity.
  - reflexivity.
  - vm_compute. reflexivity.
Defined.

(** ** The revisions side by side *)

Lemma displayTracking_run (w : World) :
  Stage2.displayTracking w
  = Done tt (printed (match content indexFile w with
                      | None => "Add a file to the index." +:+ nl
                      | Some data =>
                          "Tracked files:" +:+ nl
                          +:+ foldr (λ line acc, line +:+ nl +:+ acc) ""
                                (Bufio.scan data).1
                      end) w).
Proof.
  unfold Stage2.displayTracking. rewrite bind_run. unfold OpenVcs. rewrite gets_run.
  destruct (content indexFile w) as [data|]; [|apply Println_run].
  rewrite bind_run, Println_run, for_each_Println, printed_printed. reflexivity.
Qed.

Lemma append_or {A} (f : vcsFile) (s : string) (k fail : Cmd A) (w : World) :
  is_Some (vcsDir (disk w)) →
  (ok ← OpenFile_append f;
   if ok : bool then WriteString f s;; k else fail) w
  = k (appended f s w).
Proof.
  intros [v Hv]. rewrite bind_run. unfold OpenFile_append, appended.
  rewrite Hv. destruct (vget f v) as [data|] eqn:Hdata.
  - rewrite bind_run. unfold WriteString, modify. rewrite Hv, Hdata. reflexivity.
  - rewrite bind_run. unfold WriteString, modify. simpl.
    destruct w as [[t v'] out]. simpl in *. destruct f, v; simpl in *; subst; reflexivity.
Qed.

Lemma add_one_path (filename : string) (w : World) :
  ∃ w', Part000.doAdd [filename] w = Done tt w'
        ∧ Stage2.add [filename] w = Done tt w'
        ∧ Main.doAdd [filename] w
          = Done tt (if bool_decide (filename = "vcs"
                                     ∨ is_Some (tree (disk w) !! filename))
                     then printed nl w' else w')
        ∧ tree (disk w') = tree (disk w)
        ∧ content configFile w' = content configFile w
        ∧ content logFile w' = content logFile w
        ∧ (∀ h, snapshot h w' = snapshot h w).
Proof.
  unfold Part000.doAdd, Stage2.add, Main.doAdd.
  destruct (MkdirAll_vcsDir_run w) as (w1 & Hrun & Hvcs & Ht & Ho & Hc & Hs).
  rewrite !bind_run, Hrun, !bind_run, (Stat_found _ _ Hvcs), Ht.
  destruct (bool_decide _).
  - rewrite !(append_or indexFile (filename +:+ nl) _ _ w1 Hvcs), !Printf_run.
    eexists. split; [reflexivity|]. split; [reflexivity|].
    split; [rewrite printed_printed, !sapp_assoc; reflexivity|].
    rewrite !content_printed, tree_printed, appended_tree.
    rewrite (appended_content_other indexFile configFile) by discriminate.
    rewrite (appended_content_other indexFile logFile) by discriminate.
    rewrite !Hc. repeat split; auto.
    intros h. rewrite snapshot_printed, appended_snapshot. apply Hs.
  - rewrite !Printf_run. eexists. split; [reflexivity|]. split; [reflexivity|].
    split; [reflexivity|].
    rewrite !content_printed, tree_printed, !Hc. repeat split; auto.
Qed.



(** X23. [add] with no argument or with several, in the second program of
    [src/main.go]: [displayTracking] looks at the index file and not at
    the number of its lines, so that it prints "Tracked files:" and nothing
    more for an index file that exists and holds no line; in every other
    case it prints what [showTrackedFiles] of the first program prints. *)
Theorem tracking_list_in_stage2 (args : list string) (w : World) :
  length args ≠ 1 →
  Stage2.add args w
  = if bool_decide (is_Some (content indexFile w)) && bool_decide (staged w = [])
    then Done tt (printed ("Tracked files:" +:+ nl) w)
    else Main.doAdd args w.
Proof.
  intros Hne.
  assert (H2 : Stage2.add args w = Stage2.displayTracking w).
  { unfold Stage2.add. destruct args as [|a [|b args]]; try reflexivity.
    contradiction Hne. reflexivity. }
  assert (HM : Main.doAdd args w = showTrackedFiles w).
  { unfold Main.doAdd. destruct args as [|a [|b args]]; try reflexivity.
    contradiction Hne. reflexivity. }
  rewrite H2, HM, displayTracking_run, showTrackedFiles_run. unfold staged.
  destruct (content indexFile w) as [data|]; [|reflexivity].
  rewrite (bool_decide_eq_true_2 _ (mk_is_Some _ _ eq_refl)). cbn [andb].
  destruct ((Bufio.scan data).1) as [|file files].
  - rewrite (bool_decide_eq_true_2 _ eq_refl). reflexivity.
  - rewrite bool_decide_eq_false_2 by discriminate. reflexivity.
Qed.

Lemma tracking_list_in_stage2_witness :
  Stage2.add [] (committed_a_cleared "alice")
  = if bool_decide (is_Some (content indexFile (committed_a_cleared "alice")))
       && bool_decide (staged (committed_a_cleared "alice") = [])
    then Done tt (printed ("Tracked files:" +:+ nl) (committed_a_cleared "alice"))
    else Main.doAdd [] (committed_a_cleared "alice").
Proof.
  apply (tracking_list_in_stage2 [] (committed_a_cleared "alice")).
  simpl. lia.
Defined.

(** *** [main] of the other revisions *)

Lemma Part000_doLog_disk (w : World) : disk (after (Part000.doLog w)) = disk w.
Proof.
  destruct (Main.getCommits w) as [cs w'|s w'] eqn:Hread.
  - pose proof (Main_getCommits_pure w w' cs Hread) as ->.
    destruct (doLog_history w cs Hread) as (_ & _ & _ & Hpart). rewrite Hpart. reflexivity.
  - assert (Hpart : Part000.getCommits w = Stopped Panic w).
    { rewrite Main_getCommits_run in Hread. rewrite Part000_getCommits_run.
      destruct (content logFile w) as [data|]; [|discriminate].
      destruct (mapM _ _); [discriminate|reflexivity]. }
    unfold Part000.doLog. rewrite bind_run, Hpart. reflexivity.
Qed.

Lemma Part000_doCommit_kept (args : list string) (w : World) :
  tree (disk (after (Part000.doCommit args w))) = tree (disk w)
  ∧ content configFile (after (Part000.doCommit args w)) = content configFile w
  ∧ match content logFile w with
    | Some data =>
        ∃ more, content logFile (after (Part000.doCommit args w)) = Some (data +:+ more)
    | None => True
    end.
Proof.
  assert (Hsame : ∀ w', disk w' = disk w →
            tree (disk w') = tree (disk w)
            ∧ content configFile w' = content configFile w
            ∧ match content logFile w with
              | Some data => ∃ more, content logFile w' = Some (data +:+ more)
              | None => True
              end).
  { intros w' Hdisk. unfold content. rewrite Hdisk. repeat split.
    destruct (_ ≫= vget logFile) as [data|]; [|exact I].
    exists "". rewrite sapp_nil_r. reflexivity. }
  destruct (decide (length args = 1)) as [Hone|Hne].
  2: { unfold Part000.doCommit. destruct args as [|m [|? ?]]; try (apply Hsame; reflexivity).
       contradiction Hne. reflexivity. }
  destruct args as [|message [|? ?]]; try discriminate.
  destruct (decide (staged w = [])) as [Hnone|Hsome].
  { rewrite (Part000_doCommit_nothing_staged w message Hnone). apply Hsame. reflexivity. }
  pose proof (getUsername_run w) as Hname.
  match type of Hname with _ = Done ?r _ => destruct r as [name [e|]] end.
  { assert (Hrun : Part000.doCommit [message] w
                   = Done tt (printed ("Please, tell me who are you." +:+ nl) w)).
    { unfold Part000.doCommit. rewrite bind_run, getTrackedFiles_staged.
      destruct (staged w) as [|file files]; [contradiction|].
      rewrite bind_run, Hname. apply Println_run. }
    rewrite Hrun. apply Hsame. reflexivity. }
  destruct (readable_or_not w (staged w)) as [Hfiles|Hbad].
  - destruct (Part000_doCommit_run w message name Hname Hsome Hfiles)
      as (w' & -> & _ & Ht & Hc & _ & _ & Hlog & _).
    cbn [after]. rewrite Ht, Hc, Hlog. repeat split.
    destruct (content logFile w) as [data|]; [|exact I]. eexists. reflexivity.
  - assert (Hrun : Part000.doCommit [message] w = Stopped Fatal w).
    { unfold Part000.doCommit. rewrite bind_run, getTrackedFiles_staged.
      destruct (staged w) as [|file files] eqn:Hstaged; [contradiction|].
      rewrite <- Hstaged in *.
      rewrite bind_run, Hname. cbn [fst snd].
      rewrite bind_run. unfold Part000.Save. rewrite bind_run.
      unfold Part000.computeHash. cbn [Part000.Files].
      rewrite bind_run, hashed_bytes_fatal by assumption. reflexivity. }
    rewrite Hrun. apply Hsame. reflexivity.
Qed.

Lemma Part000_main_kept (Args : list string) (w : World) :
  tree (disk (after (Part000.main Args w))) = tree (disk w)
  ∧ match content logFile w with
    | Some data =>
        ∃ more, content logFile (after (Part000.main Args w)) = Some (data +:+ more)
    | None => True
    end.
Proof.
  assert (Hsame : ∀ w', tree (disk w') = tree (disk w) →
            content logFile w' = content logFile w →
            tree (disk w') = tree (disk w)
            ∧ match content logFile w with
              | Some data => ∃ more, content logFile w' = Some (data +:+ more)
              | None => True
              end).
  { intros w' Ht Hl. split; [exact Ht|]. rewrite Hl.
    destruct (content logFile w) as [data|]; [|exact I].
    exists "". rewrite sapp_nil_r. reflexivity. }
  assert (Hdisk : ∀ w', disk w' = disk w →
            tree (disk w') = tree (disk w)
            ∧ match content logFile w with
              | Some data => ∃ more, content logFile w' = Some (data +:+ more)
              | None => True
              end).
  { intros w' Hd. apply Hsame; unfold content; rewrite Hd; reflexivity. }
  unfold Part000.main.
  destruct Args as [|prog [|cmd args]]; try (apply Hdisk, displayHelp_disk).
  repeat case_decide.
  - apply Hdisk, displayHelp_disk.
  - destruct (doConfig_run args w) as (w' & -> & Ht & _ & Hl & _). apply Hsame; assumption.
  - destruct (decide (length args = 1)) as [Hone|Hne].
    + destruct args as [|filename [|? ?]]; try discriminate.
      destruct (add_one_path filename w) as (w' & -> & _ & _ & Ht & _ & Hl & _).
      apply Hsame; assumption.
    + assert (Hlist : Part000.doAdd args w = showTrackedFiles w).
      { unfold Part000.doAdd. destruct args as [|a [|b args]]; try reflexivity.
        contradiction Hne. reflexivity. }
      rewrite Hlist, showTrackedFiles_run. apply Hdisk. reflexivity.
  - apply Hdisk, Part000_doLog_disk.
  - destruct (Part000_doCommit_kept args w) as (Ht & _ & Hl). split; assumption.
  - apply Hdisk. reflexivity.
  - apply Hdisk. reflexivity.
Qed.

(** X24. [src/unnamed/part_000] as a whole, when the staged names are
    plain, so that [commit] copies each file into the directory of the
    hash: whatever the arguments of the program and however the run ends,
    no entry of the working tree is written, and a log file that exists
    holds afterwards the bytes it held, followed by what the run appended.
    (The index is not kept: [commit] truncates it.) *)
Theorem part000_main_keeps_tree_and_log (Args : list string) (w : World) :
  plain_staged w →
  tree (disk (after (Part000.main Args w))) = tree (disk w)
  ∧ match content logFile w with
    | Some data =>
        ∃ more, content logFile (after (Part000.main Args w)) = Some (data +:+ more)
    | None => True
    end.
Proof. intros _. apply Part000_main_kept. Qed.

Lemma part000_main_keeps_tree_and_log_witness :
  tree (disk (after (Part000.main ["svcs"; "commit"; "second"] (committed_a "alice"))))
  = tree (disk (committed_a "alice"))
  ∧ match content logFile (committed_a "alice") with
    | Some data =>
        ∃ more, content logFile
                  (after (Part000.main ["svcs"; "commit"; "second"] (committed_a "alice")))
                = Some (data +:+ more)
    | None => True
    end.
Proof.
  apply (part000_main_keeps_tree_and_log ["svcs"; "commit"; "second"]
           (committed_a "alice")).
  unfold plain_staged. vm_compute. repeat constructor.
Defined.

Lemma config_revisions (args : list string) (w : World) :
  ∃ w1 name e,
    getUsername w1 = Done (name, e) w1
    ∧ tree (disk w1) = tree (disk w)
    ∧ content indexFile w1 = content indexFile w
    ∧ content logFile w1 = content logFile w
    ∧ (∀ h, snapshot h w1 = snapshot h w)
    ∧ stdout w1 = stdout w
    ∧ doConfig args w
      = Done tt (printed (match e with
                          | None => "The username is " +:+ name +:+ "." +:+ nl
                          | Some _ => "Please, tell me who you are." +:+ nl
                          end) w1)
    ∧ Part001.config args w
      = Done tt (printed (match e with
                          | None => "The username is " +:+ name +:+ nl
                          | Some _ => "Please, tell me who you are." +:+ nl
                          end) w1).
Proof.
  assert (Hset : ∃ w1, (match args with
                        | [username] => setUsername username
                        | _ => mret tt
                        end) w = Done tt w1
                       ∧ tree (disk w1) = tree (disk w)
                       ∧ content indexFile w1 = content indexFile w
                       ∧ content logFile w1 = content logFile w
                       ∧ (∀ h, snapshot h w1 = snapshot h w)
                       ∧ stdout w1 = stdout w).
  { destruct args as [|name [|? ?]]; try (exists w; repeat split; reflexivity).
    destruct (setUsername_run name w) as (w1 & Hrun & _ & Hi & Hl & Ht & Ho & Hs).
    exists w1. auto 10. }
  destruct Hset as (w1 & Hrun & Ht & Hi & Hl & Hs & Ho).
  pose proof (getUsername_run w1) as Hname.
  match type of Hname with _ = Done ?r _ => destruct r as [name e] end.
  exists w1, name, e. split; [exact Hname|]. repeat (split; [assumption|]).
  unfold doConfig, Part001.config.
  rewrite !bind_run, Hrun, !bind_run, Hname. cbn [fst snd].
  destruct e; split; reflexivity.
Qed.

(** X25. [config] in the first revision ([src/unnamed/part_001]) and in
    [src/main.go]: both leave the same disk, where only the identity may
    have changed, and both print the identity that [getUsername] then
    reads there, or "Please, tell me who you are." when it reads none; the
    sentence of [src/main.go] ends in a period, that of the first revision
    does not. *)
Theorem config_in_the_first_revision (args : list string) (w : World) :
  ∃ w1 name e,
    getUsername w1 = Done (name, e) w1
    ∧ tree (disk w1) = tree (disk w)
    ∧ content indexFile w1 = content indexFile w
    ∧ content logFile w1 = content logFile w
    ∧ stdout w1 = stdout w
    ∧ doConfig args w
      = Done tt (printed (match e with
                          | None => "The username is " +:+ name +:+ "." +:+ nl
                          | Some _ => "Please, tell me who you are." +:+ nl
                          end) w1)
    ∧ Part001.config args w
      = Done tt (printed (match e with
                          | None => "The username is " +:+ name +:+ nl
                          | Some _ => "Please, tell me who you are." +:+ nl
                          end) w1).
Proof.
  destruct (config_revisions args w)
    as (w1 & name & e & Hname & Ht & Hi & Hl & _ & Ho & HM & H1).
  exists w1, name, e. auto 10.
Qed.

Lemma early_main_kept (Args : list string) (w : World) :
  (tree (disk (after (Stage2.main Args w))) = tree (disk w)
   ∧ content logFile (after (Stage2.main Args w)) = content logFile w
   ∧ ∀ h, snapshot h (after (Stage2.main Args w)) = snapshot h w)
  ∧ (tree (disk (after (Part001.main Args w))) = tree (disk w)
     ∧ content logFile (after (Part001.main Args w)) = content logFile w
     ∧ content indexFile (after (Part001.main Args w)) = content indexFile w
     ∧ ∀ h, snapshot h (after (Part001.main Args w)) = snapshot h w).
Proof.
  assert (Hdisk : ∀ w', disk w' = disk w →
            tree (disk w') = tree (disk w)
            ∧ content logFile w' = content logFile w
            ∧ content indexFile w' = content indexFile w
            ∧ ∀ h, snapshot h w' = snapshot h w).
  { intros w' Hd. unfold content, snapshot. rewrite Hd. auto. }
  assert (Hdisk2 : ∀ w', disk w' = disk w →
            tree (disk w') = tree (disk w)
            ∧ content logFile w' = content logFile w
            ∧ ∀ h, snapshot h w' = snapshot h w).
  { intros w' Hd. destruct (Hdisk w' Hd) as (? & ? & _ & ?). auto. }
  split.
  - unfold Stage2.main.
    destruct Args as [|prog [|cmd args]]; try (apply Hdisk2, displayHelp_disk).
    repeat case_decide.
    + apply Hdisk2, displayHelp_disk.
    + unfold Stage2.config.
      destruct (doConfig_run args w) as (w' & -> & Ht & _ & Hl & Hs & _). auto.
    + destruct (decide (length args = 1)) as [Hone|Hne].
      * destruct args as [|filename [|? ?]]; try discriminate.
        destruct (add_one_path filename w) as (w' & _ & -> & _ & Ht & _ & Hl & Hs). auto.
      * assert (Hlist : Stage2.add args w = Stage2.displayTracking w).
        { unfold Stage2.add. destruct args as [|a [|b args]]; try reflexivity.
          contradiction Hne. reflexivity. }
        rewrite Hlist, displayTracking_run. apply Hdisk2. reflexivity.
    + apply Hdisk2. reflexivity.
    + apply Hdisk2. reflexivity.
    + apply Hdisk2. reflexivity.
    + apply Hdisk2. reflexivity.
  - unfold Part001.main.
    destruct Args as [|prog [|cmd args]]; try (apply Hdisk, displayHelp_disk).
    repeat case_decide.
    + apply Hdisk, displayHelp_disk.
    + destruct (config_revisions args w)
        as (w1 & name & e & _ & Ht & Hi & Hl & Hs & _ & _ & ->).
      cbn [after]. rewrite !content_printed, tree_printed.
      repeat split; auto.
    + apply Hdisk. reflexivity.
    + apply Hdisk. reflexivity.
    + apply Hdisk. reflexivity.
    + apply Hdisk. reflexivity.
    + apply Hdisk. reflexivity.
Qed.

(** X26. The two revisions before the snapshot engine (the second program
    of [src/main.go] and [src/unnamed/part_001]): whatever the arguments,
    a run writes neither in the working tree nor in the log nor in the
    store, and the first revision does not write in the index either;
    [log], [commit] and [checkout] are stubs there. *)
Theorem early_revisions_keep_log_and_store (Args : list string) (w : World) :
  (tree (disk (after (Stage2.main Args w))) = tree (disk w)
   ∧ content logFile (after (Stage2.main Args w)) = content logFile w
   ∧ ∀ h, snapshot h (after (Stage2.main Args w)) = snapshot h w)
  ∧ (tree (disk (after (Part001.main Args w))) = tree (disk w)
     ∧ content logFile (after (Part001.main Args w)) = content logFile w
     ∧ content indexFile (after (Part001.main Args w)) = content indexFile w
     ∧ ∀ h, snapshot h (after (Part001.main Args w)) = snapshot h w).
Proof. apply early_main_kept. Qed.

(** ** C5: the log as [addLog] writes it *)

Lemma written_snoc (cs : list Main.Commit) (c : Main.Commit) :
  MainSpec.written (cs ++ [c]) = MainSpec.written cs +:+ Main.logLine c.
Proof.
  unfold MainSpec.written. induction cs as [|c0 cs IH]; simpl.
  - rewrite sapp_nil_r. reflexivity.
  - rewrite IH, sapp_assoc. reflexivity.
Qed.

(** A log written for commits whose lines read back is read as these
    commits, in the order in which they were written. *)
Lemma written_reads (cs : list Main.Commit) :
  Forall (λ c, MainSpec.storable c = true) cs →
  (Bufio.cut_lines (MainSpec.written cs)).2 = ""
  ∧ (Bufio.scan (MainSpec.written cs)).2 = None
  ∧ mapM MainSpec.parse (Bufio.scan (MainSpec.written cs)).1 = Some cs.
Proof.
  induction cs as [|c cs IH] using rev_ind; intros Hcs.
  - repeat split.
  - apply Forall_app in Hcs as [Hcs Hc]. inversion Hc as [|? ? Hc' _]; subst.
    destruct (IH Hcs) as (Hend & Hscan & Hparse).
    rewrite written_snoc. apply log_data_append; assumption.
Qed.

Lemma written_getCommits (w : World) (cs : list Main.Commit) :
  Forall (λ c, MainSpec.storable c = true) cs →
  default "" (content logFile w) = MainSpec.written cs →
  Main.getCommits w = Done cs w.
Proof.
  intros Hcs Hlog. destruct (written_reads cs Hcs) as (_ & _ & Hparse).
  rewrite <- Hlog in Hparse. rewrite Main_getCommits_run.
  destruct (content logFile w) as [data|]; simpl in Hparse.
  - rewrite Hparse. reflexivity.
  - injection Hparse as <-. reflexivity.
Qed.




(** ** C6: [checkout] of a hash that the log does not hold *)

Lemma parse_hash (line : string) (c : Main.Commit) :
  MainSpec.parse line = Some c →
  fst <$> Strings.Cut line space = Some (Main.Hash c).
Proof.
  unfold MainSpec.parse. rewrite fields_run.
  destruct (Strings.Cut line space) as [[h rest]|]; [|discriminate].
  destruct (Strings.Cut rest space) as [[a m]|]; [|discriminate].
  intros [= <-]. reflexivity.
Qed.

Lemma parse_lines_absent (lines : list string) (hash : string) :
  Forall (λ line, 2 ≤ count_char space line
                  ∧ fst <$> Strings.Cut line space ≠ Some hash) lines →
  ∃ cs, mapM MainSpec.parse lines = Some cs
        ∧ Forall (λ c, Main.Hash c ≠ hash) cs.
Proof.
  induction 1 as [|line lines [Hline Hhash] _ (cs & Hcs & Habsent)].
  - exists []. split; [reflexivity|constructor].
  - destruct (MainSpec.parse line) as [c|] eqn:Hc.
    + exists (c :: cs). split.
      * apply mapM_Some. constructor; [exact Hc|apply mapM_Some, Hcs].
      * constructor; [|exact Habsent].
        intros Heq. apply Hhash. rewrite (parse_hash line c Hc), Heq. reflexivity.
    + apply parse_None in Hc. lia.
Qed.



